(** * The Builder pattern example: Product1, Builder, ConcreteBuilder1, Director

    A shallow embedding of [src/Builder/index.js].  JavaScript objects live in
    a heap indexed by references, so that object identity and aliasing (the
    product kept by a builder and the product handed to the client are the
    same object until [reset] replaces it) are part of the model.  Methods are
    functions in a state-and-exception monad; method calls go through the
    class table and the prototype chain, as [recv.name(args)] does. *)

From Stdlib Require Import Ascii String.
From stdpp Require Import gmap strings list fin_maps.

Local Open Scope string_scope.

(** ** Values, objects, program state *)

Definition loc := positive.
Bind Scope positive_scope with loc.

(** The values the program passes around: [undefined] and object references. *)
Inductive value :=
| VUndefined
| VRef (l : loc).

Inductive class := Product1 | Builder | ConcreteBuilder1 | Director.

(** A heap object is an instance of one of the four classes, with its own data
    properties, or an array.  The only arrays of the program are the [parts]
    of products, which receive string literals only. *)
Inductive object :=
| Instance (c : class) (props : gmap string value)
| Array (elems : list string).

(** [console] holds the arguments of the [console.log] calls, oldest first. *)
Record state := State { heap : gmap loc object; console : list string }.

Inductive type_error :=
| PropertyOfUndefined (prop : string)  (* Cannot read properties of undefined (reading 'prop') *)
| NotAFunction (prop : string).        (* recv.prop is not a function *)

Inductive error :=
| Error (message : string)             (* throw new Error(message) *)
| TypeError (why : type_error)
| RangeError                           (* Maximum call stack size exceeded *)
| NoSuchObject (l : loc).              (* a reference outside the heap: no JavaScript
                                          program has one, see [closed_call] *)

Global Instance value_eq_dec : EqDecision value.
Proof. solve_decision. Defined.
Global Instance class_eq_dec : EqDecision class.
Proof. solve_decision. Defined.
Global Instance type_error_eq_dec : EqDecision type_error.
Proof. solve_decision. Defined.
Global Instance error_eq_dec : EqDecision error.
Proof. solve_decision. Defined.

(** ** The monad of method bodies

    A computation ends normally with a result or abruptly with a thrown
    error; in both cases the mutations made so far stay in the state. *)

Inductive outcome (A : Type) :=
| Return (a : A)
| Throw (e : error).
Arguments Return {A} a.
Arguments Throw {A} e.

Definition M (A : Type) : Type := state -> outcome A * state.

Definition ret {A} (a : A) : M A := fun s => (Return a, s).

Definition throw {A} (e : error) : M A := fun s => (Throw e, s).

Definition bind {A B} (m : M A) (k : A -> M B) : M B :=
  fun s =>
    match m s with
    | (Return a, s') => k a s'
    | (Throw e, s') => (Throw e, s')
    end.

Declare Scope js_scope.
Delimit Scope js_scope with js.
Notation "'let*' x ':=' m 'in' k" := (bind m (fun x => k))
  (at level 10, x name, m at level 100, k at level 200) : js_scope.
Notation "m '>>' k" := (bind m (fun _ => k))
  (at level 90, right associativity) : js_scope.
Local Open Scope js_scope.

(** ** Heap primitives *)

(** [new]: the object is stored at a reference no object has yet. *)
Definition alloc (o : object) : M loc :=
  fun s =>
    let l := fresh (dom (heap s)) in
    (Return l, State (<[l := o]> (heap s)) (console s)).

(** [v.name] for a data property.  An own property that was never assigned
    reads as [undefined]. *)
Definition get_prop (v : value) (name : string) : M value :=
  match v with
  | VUndefined => throw (TypeError (PropertyOfUndefined name))
  | VRef l =>
      fun s =>
        match heap s !! l with
        | None => (Throw (NoSuchObject l), s)
        | Some (Instance _ props) => (Return (default VUndefined (props !! name)), s)
        | Some (Array _) => (Return VUndefined, s)
        end
  end.

(** [this.name = v].  The program assigns properties of [this] only, which
    is a class instance in every constructor and method; the arrays of the
    model have elements and no named properties. *)
Definition set_prop (this : loc) (name : string) (v : value) : M unit :=
  fun s =>
    match heap s !! this with
    | Some (Instance c props) =>
        (Return tt, State (<[this := Instance c (<[name := v]> props)]> (heap s)) (console s))
    | Some (Array _) => (Return tt, s)
    | None => (Throw (NoSuchObject this), s)
    end.

Definition console_log (line : string) : M unit :=
  fun s => (Return tt, State (heap s) (console s ++ [line])).

(** ** Array.prototype.push and Array.prototype.join *)

(** [Array.prototype.join] on an array of strings. *)
Fixpoint join (sep : string) (elems : list string) : string :=
  match elems with
  | [] => EmptyString
  | [x] => x
  | x :: rest => x ++ sep ++ join sep rest
  end.

(** [v.push(x)]; the result is the new length. *)
Definition Array_push (v : value) (x : string) : M nat :=
  match v with
  | VUndefined => throw (TypeError (PropertyOfUndefined "push"))
  | VRef a =>
      fun s =>
        match heap s !! a with
        | None => (Throw (NoSuchObject a), s)
        | Some (Array elems) =>
            (Return (S (length elems)),
             State (<[a := Array (elems ++ [x])]> (heap s)) (console s))
        | Some (Instance _ _) => (Throw (TypeError (NotAFunction "push")), s)
        end
  end.

(** [v.join(sep)]. *)
Definition Array_join (v : value) (sep : string) : M string :=
  match v with
  | VUndefined => throw (TypeError (PropertyOfUndefined "join"))
  | VRef a =>
      fun s =>
        match heap s !! a with
        | None => (Throw (NoSuchObject a), s)
        | Some (Array elems) => (Return (join sep elems), s)
        | Some (Instance _ _) => (Throw (TypeError (NotAFunction "join")), s)
        end
  end.

(** ** The classes

    A method body receives the dispatcher for the method calls it makes
    (late binding), its [this] and its arguments. *)

Definition dispatcher : Type := value -> string -> list value -> M value.
Definition method : Type := dispatcher -> loc -> list value -> M value.

Definition newline : string := String "010"%char EmptyString.

Module Product1.
(** [this.parts = [];] *)
Definition constructor (this : loc) : M unit :=
  let* a := alloc (Array []) in
  set_prop this "parts" (VRef a).

(** [console.log(`Product parts: ${this.parts.join(', ')}\n`);] *)
Definition listParts : method := fun _ this _ =>
  let* parts := get_prop (VRef this) "parts" in
  let* joined := Array_join parts ", " in
  console_log ("Product parts: " ++ joined ++ newline) >>
  ret VUndefined.
End Product1.

Definition new_Product1 : M value :=
  let* this := alloc (Instance Product1 ∅) in
  Product1.constructor this >>
  ret (VRef this).

Module Builder.
Definition buildPartA : method := fun _ _ _ =>
  throw (Error "buildPartA() method must be implemented").

Definition buildPartB : method := fun _ _ _ =>
  throw (Error "buildPartB() method must be implemented").

Definition buildPartC : method := fun _ _ _ =>
  throw (Error "buildPartC() method must be implemented").
End Builder.

Module ConcreteBuilder1.
(** [super(); this.reset();] where [Builder] has the default constructor. *)
Definition constructor (call : dispatcher) (this : loc) : M unit :=
  call (VRef this) "reset" [] >>
  ret tt.

(** [this.product = new Product1();] *)
Definition reset : method := fun _ this _ =>
  let* p := new_Product1 in
  set_prop this "product" p >>
  ret VUndefined.

(** [this.product.parts.push('PartA1');] *)
Definition producePartA : method := fun _ this _ =>
  let* product := get_prop (VRef this) "product" in
  let* parts := get_prop product "parts" in
  Array_push parts "PartA1" >>
  ret VUndefined.

Definition producePartB : method := fun _ this _ =>
  let* product := get_prop (VRef this) "product" in
  let* parts := get_prop product "parts" in
  Array_push parts "PartB1" >>
  ret VUndefined.

Definition producePartC : method := fun _ this _ =>
  let* product := get_prop (VRef this) "product" in
  let* parts := get_prop product "parts" in
  Array_push parts "PartC1" >>
  ret VUndefined.

(** [const result = this.product; this.reset(); return result;] *)
Definition getProduct : method := fun call this _ =>
  let* result := get_prop (VRef this) "product" in
  call (VRef this) "reset" [] >>
  ret result.
End ConcreteBuilder1.

Module Director.
(** [this.builder = builder;] a missing argument is [undefined]. *)
Definition setBuilder : method := fun _ this args =>
  set_prop this "builder" (nth 0 args VUndefined) >>
  ret VUndefined.

(** [this.builder.producePartA();] *)
Definition buildMinimalViableProduct : method := fun call this _ =>
  let* b := get_prop (VRef this) "builder" in
  call b "producePartA" [] >>
  ret VUndefined.

Definition buildFullFeaturedProduct : method := fun call this _ =>
  let* b := get_prop (VRef this) "builder" in
  call b "producePartA" [] >>
  let* b := get_prop (VRef this) "builder" in
  call b "producePartB" [] >>
  let* b := get_prop (VRef this) "builder" in
  call b "producePartC" [] >>
  ret VUndefined.
End Director.

(** ** The class table and method calls *)

(** The methods each class body declares. *)
Definition declared (c : class) : list (string * method) :=
  match c with
  | Product1 =>
      [("listParts", Product1.listParts)]
  | Builder =>
      [("buildPartA", Builder.buildPartA);
       ("buildPartB", Builder.buildPartB);
       ("buildPartC", Builder.buildPartC)]
  | ConcreteBuilder1 =>
      [("reset", ConcreteBuilder1.reset);
       ("producePartA", ConcreteBuilder1.producePartA);
       ("producePartB", ConcreteBuilder1.producePartB);
       ("producePartC", ConcreteBuilder1.producePartC);
       ("getProduct", ConcreteBuilder1.getProduct)]
  | Director =>
      [("setBuilder", Director.setBuilder);
       ("buildMinimalViableProduct", Director.buildMinimalViableProduct);
       ("buildFullFeaturedProduct", Director.buildFullFeaturedProduct)]
  end.

(** [class ConcreteBuilder1 extends Builder]; the other classes extend nothing. *)
Definition superclass (c : class) : option class :=
  match c with
  | ConcreteBuilder1 => Some Builder
  | _ => None
  end.

(** The classes whose prototypes are searched for a method, nearest first. *)
Definition prototype_chain (c : class) : list class :=
  match superclass c with
  | Some parent => [c; parent]
  | None => [c]
  end.

Fixpoint assoc (name : string) (table : list (string * method)) : option method :=
  match table with
  | [] => None
  | (n, m) :: rest => if decide (n = name) then Some m else assoc name rest
  end.

Fixpoint resolve_in (chain : list class) (name : string) : option method :=
  match chain with
  | [] => None
  | c :: rest =>
      match assoc name (declared c) with
      | Some m => Some m
      | None => resolve_in rest name
      end
  end.

Definition resolve (c : class) (name : string) : option method :=
  resolve_in (prototype_chain c) name.

(** [recv.name(args)] with [depth] stack frames left.  An own data property
    of the receiver hides a method of the same name and is not callable.  The
    names looked up are those of the program's classes: what every object
    inherits from [Object.prototype] is not called by the program and not
    modelled, and the two array methods the program calls are [Array_push]
    and [Array_join]. *)
Fixpoint call (depth : nat) (recv : value) (name : string) (args : list value) : M value :=
  match depth with
  | 0 => throw RangeError
  | S d =>
      match recv with
      | VUndefined => throw (TypeError (PropertyOfUndefined name))
      | VRef l =>
          fun s =>
            match heap s !! l with
            | None => (Throw (NoSuchObject l), s)
            | Some (Array _) => (Throw (TypeError (NotAFunction name)), s)
            | Some (Instance c props) =>
                match props !! name with
                | Some _ => (Throw (TypeError (NotAFunction name)), s)
                | None =>
                    match resolve c name with
                    | Some m => m (call d) l args s
                    | None => (Throw (TypeError (NotAFunction name)), s)
                    end
                end
            end
      end
  end.

(** The program nests method calls two deep at most ([Director] recipe, then
    [producePartX]; [getProduct], then [reset]), see [call_depth]. *)
Definition invoke : dispatcher := call 2.

Definition new_Builder : M value :=
  let* this := alloc (Instance Builder ∅) in
  ret (VRef this).

Definition new_ConcreteBuilder1 : M value :=
  let* this := alloc (Instance ConcreteBuilder1 ∅) in
  ConcreteBuilder1.constructor invoke this >>
  ret (VRef this).

Definition new_Director : M value :=
  let* this := alloc (Instance Director ∅) in
  ret (VRef this).

(** The state in which the script starts. *)
Definition initial_state : state := State ∅ [].

(** ** Observations on states *)

(** The objects the constructors and methods create. *)
Definition product_obj (a : loc) : object :=
  Instance Product1 {[ "parts" := VRef a ]}.

Definition builder_obj (p : loc) : object :=
  Instance ConcreteBuilder1 {[ "product" := VRef p ]}.

Definition director_obj (b : value) : object :=
  Instance Director {[ "builder" := b ]}.

(** [building s b p a xs]: the builder [b] holds the product [p], whose
    [parts] array [a] has the elements [xs]. *)
Definition building (s : state) (b p a : loc) (xs : list string) : Prop :=
  heap s !! b = Some (builder_obj p) /\
  heap s !! p = Some (product_obj a) /\
  heap s !! a = Some (Array xs).

(** The parts sequence of the product [v] refers to, if [v] is a product. *)
Definition product_parts (s : state) (v : value) : option (list string) :=
  match v with
  | VUndefined => None
  | VRef p =>
      match heap s !! p with
      | Some (Instance Product1 props) =>
          match props !! "parts" with
          | Some (VRef a) =>
              match heap s !! a with
              | Some (Array xs) => Some xs
              | _ => None
              end
          | _ => None
          end
      | _ => None
      end
  end.

(** The value of [b.product], if [b] is a ConcreteBuilder1. *)
Definition current_product (s : state) (b : value) : option value :=
  match b with
  | VUndefined => None
  | VRef l =>
      match heap s !! l with
      | Some (Instance ConcreteBuilder1 props) => Some (default VUndefined (props !! "product"))
      | _ => None
      end
  end.

(** The three building steps, the method each one calls and the part it adds. *)
Inductive step := StepA | StepB | StepC.

Definition step_method (st : step) : string :=
  match st with
  | StepA => "producePartA"
  | StepB => "producePartB"
  | StepC => "producePartC"
  end.

Definition step_part (st : step) : string :=
  match st with
  | StepA => "PartA1"
  | StepB => "PartB1"
  | StepC => "PartC1"
  end.

(** [b.producePartX(); ...] for the steps in turn. *)
Fixpoint produce_all (b : value) (steps : list step) : M value :=
  match steps with
  | [] => ret VUndefined
  | st :: rest => invoke b (step_method st) [] >> produce_all b rest
  end.

(** The two recipes of the director, the method of each and the steps the
    method body lists. *)
Inductive recipe := MinimalViableProduct | FullFeaturedProduct.

Definition recipe_method (r : recipe) : string :=
  match r with
  | MinimalViableProduct => "buildMinimalViableProduct"
  | FullFeaturedProduct => "buildFullFeaturedProduct"
  end.

Definition recipe_steps (r : recipe) : list step :=
  match r with
  | MinimalViableProduct => [StepA]
  | FullFeaturedProduct => [StepA; StepB; StepC]
  end.

(** [d.buildX(); ...] for the recipes in turn. *)
Fixpoint run_recipes (d : value) (recipes : list recipe) : M value :=
  match recipes with
  | [] => ret VUndefined
  | r :: rest => invoke d (recipe_method r) [] >> run_recipes d rest
  end.

(** [director_holds s d b]: the director [d] has [b] as its [builder]
    property; a director that was never given one has no such property, which
    reads as [undefined]. *)
Definition director_holds (s : state) (d : loc) (b : value) : Prop :=
  (heap s !! d = Some (Instance Director ∅) /\ b = VUndefined) \/
  heap s !! d = Some (director_obj b).

(** The body [producePartX] of a step. *)
Definition produce (st : step) : method :=
  match st with
  | StepA => ConcreteBuilder1.producePartA
  | StepB => ConcreteBuilder1.producePartB
  | StepC => ConcreteBuilder1.producePartC
  end.

(** The names of the methods that are called from inside a method body. *)
Definition leaf_name (name : string) : Prop :=
  name = "reset" \/ exists st, name = step_method st.

(** The parts a recipe adds. *)
Definition recipe_parts (r : recipe) : list string := map step_part (recipe_steps r).

(** The operations of a ConcreteBuilder1 and the method of each. *)
Inductive builder_op := Reset | Produce (st : step) | GetProduct.

Definition op_method (op : builder_op) : string :=
  match op with
  | Reset => "reset"
  | Produce st => step_method st
  | GetProduct => "getProduct"
  end.

(** [b.op(); ...] for the operations in turn; the results, in order. *)
Fixpoint run_ops (b : value) (ops : list builder_op) : M (list value) :=
  match ops with
  | [] => ret []
  | op :: rest =>
      let* v := invoke b (op_method op) [] in
      let* vs := run_ops b rest in
      ret (v :: vs)
  end.

(** The abstract method of [Builder] that stands for a step. *)
Definition abstract_method (st : step) : string :=
  match st with
  | StepA => "buildPartA"
  | StepB => "buildPartB"
  | StepC => "buildPartC"
  end.

(** The message of the error an abstract method throws. *)
Definition must_be_implemented (name : string) : string :=
  name ++ "() method must be implemented".

(** A client that makes a builder, calls the steps and retrieves the product. *)
Definition build_and_get (steps : list step) : M value :=
  let* b := new_ConcreteBuilder1 in
  produce_all b steps >>
  invoke b "getProduct" [].

(** A client that makes a builder and a director, runs a recipe and retrieves
    the product, as [clientCode] does. *)
Definition direct_and_get (r : recipe) : M value :=
  let* b := new_ConcreteBuilder1 in
  let* d := new_Director in
  invoke d "setBuilder" [b] >>
  invoke d (recipe_method r) [] >>
  invoke b "getProduct" [].

(** ** The error kinds of the specification

    [NotImplemented] is the error of a simulated abstract method, recognised
    by its message; [InvalidState] is the failure of reading a property of an
    absent ([undefined]) reference. *)
Inductive error_kind := NotImplemented | InvalidState | Unclassified.

Definition ends_with (suffix s : string) : bool :=
  let n := String.length s in
  let k := String.length suffix in
  (k <=? n)%nat && String.eqb (substring (n - k) k s) suffix.

Definition kind_of (e : error) : error_kind :=
  match e with
  | Error message =>
      if ends_with "must be implemented" message then NotImplemented else Unclassified
  | TypeError (PropertyOfUndefined _) => InvalidState
  | _ => Unclassified
  end.

(** [clientCode(director)] and the script [const director = new Director();
    clientCode(director);]. *)
Definition clientCode (director : value) : M value :=
  let* builder := new_ConcreteBuilder1 in
  invoke director "setBuilder" [builder] >>
  console_log "Standard basic product:" >>
  invoke director "buildMinimalViableProduct" [] >>
  (let* product := invoke builder "getProduct" [] in invoke product "listParts" []) >>
  console_log "Standard full featured product:" >>
  invoke director "buildFullFeaturedProduct" [] >>
  (let* product := invoke builder "getProduct" [] in invoke product "listParts" []) >>
  console_log "Custom product:" >>
  invoke builder "producePartA" [] >>
  invoke builder "producePartC" [] >>
  (let* product := invoke builder "getProduct" [] in invoke product "listParts" []) >>
  console_log "Remember that all outputs are different, due to the reset() method is called after each getProduct() call." >>
  ret VUndefined.

Definition script : M value :=
  let* director := new_Director in
  clientCode director.

(** A client with two builders and a director that holds the first one,
    which has one part already; and the state it reaches. *)
Definition two_builders : M value :=
  let* b1 := new_ConcreteBuilder1 in
  let* b2 := new_ConcreteBuilder1 in
  let* d := new_Director in
  invoke d "setBuilder" [b1] >>
  invoke b1 "producePartA" [].

Definition two_builders_state : state := snd (two_builders initial_state).

(** The state after [new Director()] alone. *)
Definition lone_director_state : state := snd (new_Director initial_state).

(** ** Well-formed states

    The shape of the heaps the program builds: every instance has the
    properties its constructor and methods assign and no others, a builder
    holds a product, a product holds an array, no product is held by two
    builders, no array by two products, and no reference leaves the heap. *)

Definition closed (h : gmap loc object) (v : value) : Prop :=
  match v with
  | VUndefined => True
  | VRef l => is_Some (h !! l)
  end.

Definition object_ok (h : gmap loc object) (o : object) : Prop :=
  match o with
  | Array _ => True
  | Instance Product1 props =>
      exists a xs, props = {[ "parts" := VRef a ]} /\ h !! a = Some (Array xs)
  | Instance Builder props => props = ∅
  | Instance ConcreteBuilder1 props =>
      exists p a, props = {[ "product" := VRef p ]} /\ h !! p = Some (product_obj a)
  | Instance Director props =>
      props = ∅ \/ exists v, props = {[ "builder" := v ]} /\ closed h v
  end.

Record wf (s : state) : Prop := {
  wf_objects : forall l o, heap s !! l = Some o -> object_ok (heap s) o;
  wf_products : forall b1 b2 p,
    heap s !! b1 = Some (builder_obj p) -> heap s !! b2 = Some (builder_obj p) -> b1 = b2;
  wf_arrays : forall p1 p2 a,
    heap s !! p1 = Some (product_obj a) -> heap s !! p2 = Some (product_obj a) -> p1 = p2
}.

(** [extends h h']: from [h] to [h'] products are untouched, arrays stay
    arrays and no object disappears. *)
Definition extends (h h' : gmap loc object) : Prop :=
  (forall l props, h !! l = Some (Instance Product1 props) ->
                   h' !! l = Some (Instance Product1 props)) /\
  (forall l xs, h !! l = Some (Array xs) -> exists ys, h' !! l = Some (Array ys)) /\
  (forall l, is_Some (h !! l) -> is_Some (h' !! l)).

(** The errors the program can end with: those it throws itself and the
    TypeErrors of calls and property reads that fail. *)
Definition program_error (e : error) : Prop :=
  match e with
  | Error _ | TypeError _ => True
  | RangeError | NoSuchObject _ => False
  end.

Definition outcome_ok (h : gmap loc object) (o : outcome value) : Prop :=
  match o with
  | Return v => closed h v
  | Throw e => program_error e
  end.

(** The error of calling a method named [name] on a value that has none. *)
Definition no_such_method (s : state) (recv : value) (name : string) : error :=
  match recv with
  | VUndefined => TypeError (PropertyOfUndefined name)
  | VRef l =>
      match heap s !! l with
      | None => NoSuchObject l
      | Some _ => TypeError (NotAFunction name)
      end
  end.

(** A client that builds a product by the given steps and lists its parts. *)
Definition build_and_list (steps : list step) : M value :=
  let* product := build_and_get steps in
  invoke product "listParts" [].

(** The lines [clientCode] logs. *)
Definition clientCode_lines : list string :=
  ["Standard basic product:";
   "Product parts: PartA1" ++ newline;
   "Standard full featured product:";
   "Product parts: PartA1, PartB1, PartC1" ++ newline;
   "Custom product:";
   "Product parts: PartA1, PartC1" ++ newline;
   "Remember that all outputs are different, due to the reset() method is called after each getProduct() call."].

(** The state after [new ConcreteBuilder1()] and the three building steps:
    the builder is object 1 and holds product 2, whose array 3 has the three
    parts. *)
Definition full_product_state : state :=
  snd ((let* b := new_ConcreteBuilder1 in
        produce_all b [StepA; StepB; StepC]) initial_state).

(** The method names of the program: those its four class bodies declare.
    None of them is a method of [Object.prototype] or [Array.prototype], so
    that under these names [call] finds what JavaScript finds, on every
    receiver. *)
Definition method_names : list string :=
  flat_map (fun c => map fst (declared c)) [Product1; Builder; ConcreteBuilder1; Director].

Definition is_program_method (name : string) : bool :=
  existsb (String.eqb name) method_names.

(** ** Client programs

    A client that uses the four classes through [new] and method calls only.
    The values obtained so far are kept in a list; a command refers to them by
    position, and a position past the end reads as [undefined].  An uncaught
    error ends the program. *)
Inductive command :=
| New (c : class)
| Call (recv : nat) (name : string) (args : list nat).

Definition construct (c : class) : M value :=
  match c with
  | Product1 => new_Product1
  | Builder => new_Builder
  | ConcreteBuilder1 => new_ConcreteBuilder1
  | Director => new_Director
  end.

Fixpoint run_commands (env : list value) (cmds : list command) : M (list value) :=
  match cmds with
  | [] => ret env
  | New c :: rest =>
      let* v := construct c in
      run_commands (env ++ [v]) rest
  | Call recv name args :: rest =>
      let* v := invoke (nth recv env VUndefined) name
                       (map (fun i => nth i env VUndefined) args) in
      run_commands (env ++ [v]) rest
  end.

(** The client programs whose method calls use the method names of the
    program. *)
Definition command_in_scope (cmd : command) : bool :=
  match cmd with
  | New _ => true
  | Call _ name _ => is_program_method name
  end.

Definition commands_in_scope (cmds : list command) : bool :=
  forallb command_in_scope cmds.

(** ** The monad and the heap primitives *)

Lemma bind_Return {A B} (m : M A) (k : A -> M B) s a s' :
  m s = (Return a, s') -> bind m k s = k a s'.
Proof. intros H. unfold bind. rewrite H. reflexivity. Qed.

Lemma bind_assoc {A B C} (m : M A) (k : A -> M B) (k' : B -> M C) s :
  bind (bind m k) k' s = bind m (fun a => bind (k a) k') s.
Proof. unfold bind. destruct (m s) as [[a|e] s']; reflexivity. Qed.

Lemma fresh_None (h : gmap loc object) : h !! fresh (dom h) = None.
Proof. apply not_elem_of_dom, is_fresh. Qed.

Lemma get_prop_run s l c props name :
  heap s !! l = Some (Instance c props) ->
  get_prop (VRef l) name s = (Return (default VUndefined (props !! name)), s).
Proof. intros H. unfold get_prop. rewrite H. reflexivity. Qed.

Lemma set_prop_run s l c props name v :
  heap s !! l = Some (Instance c props) ->
  set_prop l name v s =
  (Return tt, State (<[l := Instance c (<[name := v]> props)]> (heap s)) (console s)).
Proof. intros H. unfold set_prop. rewrite H. reflexivity. Qed.

Lemma Array_push_run s a xs x :
  heap s !! a = Some (Array xs) ->
  Array_push (VRef a) x s =
  (Return (S (length xs)), State (<[a := Array (xs ++ [x])]> (heap s)) (console s)).
Proof. intros H. unfold Array_push. rewrite H. reflexivity. Qed.

Lemma Array_join_run s a xs sep :
  heap s !! a = Some (Array xs) ->
  Array_join (VRef a) sep s = (Return (join sep xs), s).
Proof. intros H. unfold Array_join. rewrite H. reflexivity. Qed.

(** ** Product1 *)

(** [new Product1()] adds two objects, the product and its empty array, and
    touches nothing else. *)
Lemma new_Product1_run s :
  exists p a,
    new_Product1 s =
    (Return (VRef p),
     State (<[p := product_obj a]> (<[a := Array []]> (heap s))) (console s)) /\
    heap s !! p = None /\ heap s !! a = None /\ p <> a.
Proof.
  set (p := fresh (dom (heap s))).
  set (h1 := <[p := Instance Product1 ∅]> (heap s)).
  set (a := fresh (dom h1)).
  assert (Hp : heap s !! p = None) by apply fresh_None.
  assert (Ha1 : h1 !! a = None) by apply fresh_None.
  assert (Hpa : p <> a).
  { intros E. subst h1. rewrite <- E, lookup_insert_eq in Ha1. discriminate. }
  assert (Ha : heap s !! a = None).
  { subst h1. rewrite lookup_insert_ne in Ha1 by exact Hpa. exact Ha1. }
  exists p, a. split; [|auto].
  unfold new_Product1, Product1.constructor, bind, alloc, set_prop, ret. simpl.
  fold p. fold h1. fold a.
  rewrite lookup_insert_ne by (intros E; apply Hpa; symmetry; exact E).
  unfold h1 at 1. rewrite lookup_insert_eq.
  unfold product_obj. do 2 f_equal.
  rewrite insert_empty. unfold h1.
  rewrite (insert_insert_ne _ a p) by (intros E; apply Hpa; symmetry; exact E).
  rewrite insert_insert_eq. reflexivity.
Qed.

(** ** Method calls *)

Lemma call_Instance d l c props name args s m :
  heap s !! l = Some (Instance c props) ->
  props !! name = None ->
  resolve c name = Some m ->
  call (S d) (VRef l) name args s = m (call d) l args s.
Proof. intros Hl Hn Hm. simpl. rewrite Hl, Hn, Hm. reflexivity. Qed.

Lemma call_not_a_function d l c props name args s :
  heap s !! l = Some (Instance c props) ->
  resolve c name = None ->
  call (S d) (VRef l) name args s = (Throw (TypeError (NotAFunction name)), s).
Proof. intros Hl Hm. simpl. rewrite Hl, Hm. destruct (props !! name); reflexivity. Qed.

Lemma call_undefined d name args s :
  call (S d) VUndefined name args s = (Throw (TypeError (PropertyOfUndefined name)), s).
Proof. reflexivity. Qed.

Lemma resolve_step st : resolve ConcreteBuilder1 (step_method st) = Some (produce st).
Proof. destruct st; reflexivity. Qed.

Lemma builder_props_step p st :
  ({[ "product" := VRef p ]} : gmap string value) !! step_method st = None.
Proof. destruct st; apply lookup_singleton_ne; discriminate. Qed.

(** ** ConcreteBuilder1 *)

Lemma reset_run call s b props args :
  heap s !! b = Some (Instance ConcreteBuilder1 props) ->
  exists p a,
    ConcreteBuilder1.reset call b args s =
    (Return VUndefined,
     State (<[b := Instance ConcreteBuilder1 (<["product" := VRef p]> props)]>
              (<[p := product_obj a]> (<[a := Array []]> (heap s))))
           (console s)) /\
    heap s !! p = None /\ heap s !! a = None /\ p <> a.
Proof.
  intros Hb. destruct (new_Product1_run s) as (p & a & Hnew & Hp & Ha & Hpa).
  exists p, a. split; [|auto].
  unfold ConcreteBuilder1.reset.
  rewrite (bind_Return _ _ _ _ _ Hnew).
  assert (Hb' : heap (State (<[p := product_obj a]> (<[a := Array []]> (heap s))) (console s))
                !! b = Some (Instance ConcreteBuilder1 props)).
  { simpl. rewrite !lookup_insert_ne by congruence. exact Hb. }
  rewrite (bind_Return _ _ _ _ _ (set_prop_run _ _ _ _ _ _ Hb')).
  reflexivity.
Qed.

Lemma produce_run call s b p a xs st args :
  building s b p a xs ->
  produce st call b args s =
  (Return VUndefined, State (<[a := Array (xs ++ [step_part st])]> (heap s)) (console s)).
Proof.
  intros (Hb & Hp & Ha).
  assert (E : forall x,
    (let* product := get_prop (VRef b) "product" in
     let* parts := get_prop product "parts" in
     Array_push parts x >> ret VUndefined) s =
    (Return VUndefined, State (<[a := Array (xs ++ [x])]> (heap s)) (console s))).
  { intros x.
    rewrite (bind_Return _ _ _ _ _ (get_prop_run _ _ _ _ "product" Hb)).
    rewrite lookup_singleton_eq. simpl default.
    rewrite (bind_Return _ _ _ _ _ (get_prop_run _ _ _ _ "parts" Hp)).
    rewrite lookup_singleton_eq. simpl default.
    rewrite (bind_Return _ _ _ _ _ (Array_push_run _ _ _ x Ha)).
    reflexivity. }
  destruct st; apply E.
Qed.

Lemma call_step d s b p a xs st args :
  building s b p a xs ->
  call (S d) (VRef b) (step_method st) args s =
  (Return VUndefined, State (<[a := Array (xs ++ [step_part st])]> (heap s)) (console s)).
Proof.
  intros H. pose proof H as (Hb & _).
  rewrite (call_Instance _ _ _ _ _ _ _ _ Hb (builder_props_step p st) (resolve_step st)).
  eapply produce_run. exact H.
Qed.

Lemma building_push s b p a xs x :
  building s b p a xs ->
  building (State (<[a := Array (xs ++ [x])]> (heap s)) (console s)) b p a (xs ++ [x]).
Proof.
  intros (Hb & Hp & Ha). unfold building. simpl.
  rewrite !lookup_insert_ne by (unfold builder_obj, product_obj in *; congruence).
  rewrite lookup_insert_eq. auto.
Qed.

(** After [reset] the builder holds a new, empty product; the objects that
    were in the heap, the old product among them, are as before. *)
Lemma call_reset d s b p0 args :
  heap s !! b = Some (builder_obj p0) ->
  exists p a,
    call (S d) (VRef b) "reset" args s =
    (Return VUndefined,
     State (<[b := builder_obj p]> (<[p := product_obj a]> (<[a := Array []]> (heap s))))
           (console s)) /\
    heap s !! p = None /\ heap s !! a = None /\ p <> a.
Proof.
  intros Hb. destruct (reset_run (call d) s b _ args Hb) as (p & a & Hrun & Hfresh).
  exists p, a. split; [|exact Hfresh].
  erewrite call_Instance; [| exact Hb | apply lookup_singleton_ne; discriminate | reflexivity].
  rewrite Hrun. unfold builder_obj. rewrite insert_singleton_eq. reflexivity.
Qed.

Lemma call_getProduct d s b p0 args :
  heap s !! b = Some (builder_obj p0) ->
  exists p a,
    call (S (S d)) (VRef b) "getProduct" args s =
    (Return (VRef p0),
     State (<[b := builder_obj p]> (<[p := product_obj a]> (<[a := Array []]> (heap s))))
           (console s)) /\
    heap s !! p = None /\ heap s !! a = None /\ p <> a.
Proof.
  intros Hb. destruct (call_reset d s b p0 [] Hb) as (p & a & Hrun & Hfresh).
  exists p, a. split; [|exact Hfresh].
  erewrite call_Instance; [| exact Hb | apply lookup_singleton_ne; discriminate | reflexivity].
  unfold ConcreteBuilder1.getProduct.
  rewrite (bind_Return _ _ _ _ _ (get_prop_run _ _ _ _ "product" Hb)).
  rewrite lookup_singleton_eq. simpl default.
  rewrite (bind_Return _ _ _ _ _ Hrun). reflexivity.
Qed.

(** A new builder comes with its first, empty product. *)
Lemma new_ConcreteBuilder1_run s :
  exists b p a,
    new_ConcreteBuilder1 s =
    (Return (VRef b),
     State (<[b := builder_obj p]> (<[p := product_obj a]> (<[a := Array []]> (heap s))))
           (console s)) /\
    heap s !! b = None /\ heap s !! p = None /\ heap s !! a = None /\
    b <> p /\ b <> a /\ p <> a.
Proof.
  set (b := fresh (dom (heap s))).
  set (s1 := State (<[b := Instance ConcreteBuilder1 ∅]> (heap s)) (console s)).
  assert (Hb : heap s !! b = None) by apply fresh_None.
  assert (Hb1 : heap s1 !! b = Some (Instance ConcreteBuilder1 ∅)) by apply lookup_insert_eq.
  destruct (reset_run (call 1) s1 b _ [] Hb1) as (p & a & Hrun & Hp & Ha & Hpa).
  assert (Hbp : b <> p).
  { intros E. rewrite <- E, Hb1 in Hp. discriminate. }
  assert (Hba : b <> a).
  { intros E. rewrite <- E, Hb1 in Ha. discriminate. }
  simpl in Hp, Ha. rewrite lookup_insert_ne in Hp, Ha by assumption.
  exists b, p, a. split; [|auto 10].
  unfold new_ConcreteBuilder1.
  rewrite (bind_Return (alloc (Instance ConcreteBuilder1 ∅)) _ s b s1 eq_refl).
  unfold ConcreteBuilder1.constructor, invoke. rewrite bind_assoc.
  rewrite (bind_Return _ _ s1 VUndefined _
             (eq_trans (call_Instance 1 b _ _ "reset" [] s1 _ Hb1 (lookup_empty _) eq_refl) Hrun)).
  unfold bind, ret, builder_obj. do 2 f_equal. simpl.
  rewrite insert_empty.
  rewrite (insert_insert_ne _ a b), (insert_insert_ne _ p b) by congruence.
  rewrite insert_insert_eq. reflexivity.
Qed.

(** ** Stack depth

    The methods called from inside a method body are [reset] and the three
    [producePartX], whose own bodies call no method. *)

Lemma bind_cong {A B} (m m' : M A) (k k' : A -> M B) s :
  m s = m' s ->
  (forall a s', m' s = (Return a, s') -> k a s' = k' a s') ->
  bind m k s = bind m' k' s.
Proof.
  intros Hm H. unfold bind. rewrite Hm.
  destruct (m' s) as [[a|e] s']; [apply H | ]; reflexivity.
Qed.

Lemma call_leaf d name recv args s :
  leaf_name name ->
  call (S d) recv name args s = call 1 recv name args s.
Proof.
  intros Hname. destruct recv as [|l]; [reflexivity|].
  simpl. destruct (heap s !! l) as [[c props|]|]; try reflexivity.
  destruct (props !! name); [reflexivity|].
  destruct Hname as [->|[[] ->]]; destruct c; reflexivity.
Qed.

Lemma method_depth c name m d this args s :
  resolve c name = Some m ->
  m (call (S d)) this args s = m (call 1) this args s.
Proof.
  intros Hm.
  assert (Hreset : leaf_name "reset") by (left; reflexivity).
  assert (Hstep : forall st, leaf_name (step_method st)) by (intros st; right; eauto).
  destruct c; unfold resolve in Hm; simpl in Hm;
    repeat (case_decide; [injection Hm as <-|]); try discriminate; try reflexivity.
  - unfold ConcreteBuilder1.getProduct.
    apply bind_cong; [reflexivity|]. intros v s1 _.
    apply bind_cong; [apply call_leaf; assumption | reflexivity].
  - unfold Director.buildMinimalViableProduct.
    apply bind_cong; [reflexivity|]. intros v s1 _.
    apply bind_cong; [apply call_leaf, (Hstep StepA) | reflexivity].
  - unfold Director.buildFullFeaturedProduct.
    apply bind_cong; [reflexivity|]. intros v1 s1 _.
    apply bind_cong; [apply call_leaf, (Hstep StepA)|]. intros ? s2 _.
    apply bind_cong; [reflexivity|]. intros v2 s3 _.
    apply bind_cong; [apply call_leaf, (Hstep StepB)|]. intros ? s4 _.
    apply bind_cong; [reflexivity|]. intros v3 s5 _.
    apply bind_cong; [apply call_leaf, (Hstep StepC) | reflexivity].
Qed.

(** Two stack frames are as good as any larger number. *)
Lemma call_depth d recv name args s :
  call (S (S d)) recv name args s = invoke recv name args s.
Proof.
  unfold invoke. destruct recv as [|l]; [reflexivity|].
  cbn [call]. destruct (heap s !! l) as [[c props|]|]; try reflexivity.
  destruct (props !! name); [reflexivity|].
  destruct (resolve c name) as [m|] eqn:Hm; [|reflexivity].
  apply (method_depth c name). exact Hm.
Qed.

(** ** What a building step does, on any receiver

    [recv.producePartX()] either throws and changes nothing, or appends the
    part of the step to one array and changes nothing else. *)

Lemma produce_cases call st this args s :
  (exists e, produce st call this args s = (Throw e, s)) \/
  (exists a xs,
     heap s !! a = Some (Array xs) /\
     produce st call this args s =
     (Return VUndefined, State (<[a := Array (xs ++ [step_part st])]> (heap s)) (console s))).
Proof.
  assert (E : forall x,
    (exists e,
       (let* product := get_prop (VRef this) "product" in
        let* parts := get_prop product "parts" in
        Array_push parts x >> ret VUndefined) s = (Throw e, s)) \/
    (exists a xs,
       heap s !! a = Some (Array xs) /\
       (let* product := get_prop (VRef this) "product" in
        let* parts := get_prop product "parts" in
        Array_push parts x >> ret VUndefined) s =
       (Return VUndefined, State (<[a := Array (xs ++ [x])]> (heap s)) (console s)))).
  { intros x. unfold bind, get_prop, Array_push, throw, ret.
    destruct (heap s !! this) as [[c props|]|]; [| |left; eauto].
    - destruct (default VUndefined (props !! "product")) as [|p]; [left; eauto|].
      destruct (heap s !! p) as [[c' props'|]|]; [| |left; eauto].
      + destruct (default VUndefined (props' !! "parts")) as [|a]; [left; eauto|].
        destruct (heap s !! a) as [[|xs]|] eqn:Ha; [left; eauto| |left; eauto].
        right. exists a, xs. split; [exact Ha | reflexivity].
      + left; eauto.
    - left; eauto. }
  destruct st; apply E.
Qed.

Lemma call_step_cases d recv st args s :
  (exists e, call d recv (step_method st) args s = (Throw e, s)) \/
  (exists a xs,
     heap s !! a = Some (Array xs) /\
     call d recv (step_method st) args s =
     (Return VUndefined, State (<[a := Array (xs ++ [step_part st])]> (heap s)) (console s))).
Proof.
  destruct d as [|d]; [left; eexists; reflexivity|].
  destruct recv as [|l]; [left; eexists; reflexivity|].
  cbn [call].
  destruct (heap s !! l) as [[c props|]|]; [| left; eauto | left; eauto].
  destruct (props !! step_method st); [left; eauto|].
  destruct (resolve c (step_method st)) as [m|] eqn:Hm; [|left; eauto].
  destruct c; try (destruct st; discriminate Hm).
  rewrite resolve_step in Hm. injection Hm as <-. apply produce_cases.
Qed.

(** A building step leaves every class instance as it is. *)
Lemma call_step_frame d recv st args s o s' l c props :
  call d recv (step_method st) args s = (o, s') ->
  heap s !! l = Some (Instance c props) ->
  heap s' !! l = Some (Instance c props).
Proof.
  intros Hcall Hl.
  destruct (call_step_cases d recv st args s) as [[e He]|(a & xs & Ha & Hr)].
  - rewrite He in Hcall. injection Hcall as _ <-. exact Hl.
  - rewrite Hr in Hcall. injection Hcall as _ <-. simpl.
    rewrite lookup_insert_ne by congruence. exact Hl.
Qed.

(** ** Director *)

Lemma director_holds_props s d b :
  director_holds s d b ->
  exists props,
    heap s !! d = Some (Instance Director props) /\
    default VUndefined (props !! "builder") = b /\
    <["builder" := b]> props = {[ "builder" := b ]} /\
    forall name, name <> "builder" -> props !! name = None.
Proof.
  intros [[Hd ->]|Hd].
  - exists ∅. split; [exact Hd|]. split; [reflexivity|].
    split; [apply insert_empty|]. intros; apply lookup_empty.
  - exists {[ "builder" := b ]}. split; [exact Hd|].
    split; [rewrite lookup_singleton_eq; reflexivity|].
    split; [apply insert_singleton_eq|].
    intros name Hn. apply lookup_singleton_ne. congruence.
Qed.

Lemma call_setBuilder d0 s d b0 args :
  director_holds s d b0 ->
  call (S d0) (VRef d) "setBuilder" args s =
  (Return VUndefined,
   State (<[d := director_obj (nth 0 args VUndefined)]> (heap s)) (console s)).
Proof.
  intros H. destruct (director_holds_props _ _ _ H) as (props & Hd & _ & _ & Hnone).
  erewrite call_Instance; [| exact Hd | apply Hnone; discriminate | reflexivity].
  unfold Director.setBuilder.
  rewrite (bind_Return _ _ _ _ _ (set_prop_run _ _ _ _ "builder" _ Hd)).
  unfold ret, director_obj. do 3 f_equal.
  destruct H as [[Hd' _]|Hd']; rewrite Hd' in Hd; injection Hd as <-.
  - rewrite insert_empty. reflexivity.
  - rewrite insert_singleton_eq. reflexivity.
Qed.

Lemma step_keeps_director n recv st args s o s' d b :
  call n recv (step_method st) args s = (o, s') ->
  director_holds s d b -> director_holds s' d b.
Proof.
  intros Hcall [[Hd ->]|Hd]; [left; split; [|reflexivity] | right];
    eapply call_step_frame; eauto.
Qed.

(** One statement [this.builder.producePartX();] of a recipe. *)
Lemma recipe_statement s d b st (k k' : M value) :
  director_holds s d b ->
  (forall s1, director_holds s1 d b -> k s1 = k' s1) ->
  (let* b' := get_prop (VRef d) "builder" in
   call 1 b' (step_method st) [] >> k) s =
  (invoke b (step_method st) [] >> k') s.
Proof.
  intros H Hk. destruct (director_holds_props _ _ _ H) as (props & Hd & Hb & _).
  rewrite (bind_Return _ _ _ _ _ (get_prop_run _ _ _ _ "builder" Hd)), Hb.
  apply bind_cong.
  { symmetry. apply (call_leaf 1). right. eauto. }
  intros ? s1 Hcall. apply Hk. eapply step_keeps_director; eauto.
Qed.

(** A recipe is the sequence of its building steps on the held builder. *)
Lemma call_recipe s d b r args :
  director_holds s d b ->
  invoke (VRef d) (recipe_method r) args s = produce_all b (recipe_steps r) s.
Proof.
  intros H. destruct (director_holds_props _ _ _ H) as (props & Hd & _ & _ & Hnone).
  unfold invoke.
  destruct r.
  - erewrite call_Instance; [| exact Hd | apply Hnone; discriminate | reflexivity].
    apply (recipe_statement s d b StepA); [exact H | reflexivity].
  - erewrite call_Instance; [| exact Hd | apply Hnone; discriminate | reflexivity].
    apply (recipe_statement s d b StepA); [exact H|]. intros s1 H1.
    apply (recipe_statement s1 d b StepB); [exact H1|]. intros s2 H2.
    apply (recipe_statement s2 d b StepC); [exact H2 | reflexivity].
Qed.

(** ** Sequences of steps and of recipes on a builder that is building *)

Lemma state_eta s : State (heap s) (console s) = s.
Proof. destruct s; reflexivity. Qed.

Lemma produce_all_run s b p a xs steps :
  building s b p a xs ->
  produce_all (VRef b) steps s =
  (Return VUndefined,
   State (<[a := Array (xs ++ map step_part steps)]> (heap s)) (console s)).
Proof.
  revert s xs. induction steps as [|st steps IH]; intros s xs H.
  - simpl. rewrite app_nil_r. destruct H as (_ & _ & Ha).
    rewrite (insert_id _ _ _ Ha), state_eta. reflexivity.
  - simpl produce_all. unfold invoke.
    rewrite (bind_Return _ _ _ _ _ (call_step 1 s b p a xs st [] H)).
    rewrite (IH _ _ (building_push _ _ _ _ _ (step_part st) H)). simpl.
    rewrite insert_insert_eq, <- app_assoc. reflexivity.
Qed.

Lemma building_director s b p a xs d v ys :
  building s b p a xs -> director_holds s d v ->
  director_holds (State (<[a := Array ys]> (heap s)) (console s)) d v.
Proof.
  intros (_ & _ & Ha) [[Hd ->]|Hd]; [left; split; [|reflexivity] | right]; simpl;
    (rewrite lookup_insert_ne by (intros ->; rewrite Ha in Hd; discriminate)); exact Hd.
Qed.

Lemma run_recipes_run s d b p a xs recipes :
  director_holds s d (VRef b) ->
  building s b p a xs ->
  run_recipes (VRef d) recipes s =
  (Return VUndefined,
   State (<[a := Array (xs ++ concat (map recipe_parts recipes))]> (heap s)) (console s)).
Proof.
  revert s xs. induction recipes as [|r recipes IH]; intros s xs Hd H.
  - simpl. rewrite app_nil_r. destruct H as (_ & _ & Ha).
    rewrite (insert_id _ _ _ Ha), state_eta. reflexivity.
  - simpl run_recipes.
    assert (Hr : invoke (VRef d) (recipe_method r) [] s =
                 (Return VUndefined,
                  State (<[a := Array (xs ++ recipe_parts r)]> (heap s)) (console s))).
    { rewrite (call_recipe s d (VRef b) r [] Hd). apply (produce_all_run s b p a xs _ H). }
    rewrite (bind_Return _ _ _ _ _ Hr).
    assert (H' : building (State (<[a := Array (xs ++ recipe_parts r)]> (heap s)) (console s))
                          b p a (xs ++ recipe_parts r)).
    { destruct H as (Hb & Hp & Ha). unfold building. simpl.
      rewrite !lookup_insert_ne by (unfold builder_obj, product_obj in *; congruence).
      rewrite lookup_insert_eq. auto. }
    rewrite (IH _ _ (building_director _ _ _ _ _ _ _ _ H Hd) H'). simpl.
    rewrite insert_insert_eq, <- app_assoc. reflexivity.
Qed.

Lemma building_current_product s b p a xs :
  building s b p a xs -> current_product s (VRef b) = Some (VRef p).
Proof.
  intros (Hb & _). unfold current_product. rewrite Hb. unfold builder_obj.
  rewrite lookup_singleton_eq. reflexivity.
Qed.

Lemma product_parts_intro s p a xs :
  heap s !! p = Some (product_obj a) ->
  heap s !! a = Some (Array xs) ->
  product_parts s (VRef p) = Some xs.
Proof.
  intros Hp Ha. unfold product_parts. rewrite Hp. unfold product_obj.
  rewrite lookup_singleton_eq, Ha. reflexivity.
Qed.

Lemma building_product_parts s b p a xs :
  building s b p a xs -> product_parts s (VRef p) = Some xs.
Proof. intros (_ & Hp & Ha). eapply product_parts_intro; eauto. Qed.

(** The state after [reset] or [getProduct]: the builder is building a new
    product, and what was in the heap before is still there, unchanged except
    for the builder's [product] property. *)
Lemma building_after_reset s b p a :
  heap s !! p = None -> heap s !! a = None -> p <> a -> b <> p -> b <> a ->
  let s' := State (<[b := builder_obj p]> (<[p := product_obj a]> (<[a := Array []]> (heap s))))
                  (console s) in
  building s' b p a [] /\
  forall l o, l <> b -> heap s !! l = Some o -> heap s' !! l = Some o.
Proof.
  intros Hp Ha Hpa Hbp Hba s'. split.
  - unfold building, s'. simpl.
    rewrite lookup_insert_eq.
    rewrite (lookup_insert_ne _ b p), lookup_insert_eq by congruence.
    rewrite (lookup_insert_ne _ b a), (lookup_insert_ne _ p a), lookup_insert_eq by congruence.
    auto.
  - intros l o Hlb Hl. unfold s'. simpl.
    rewrite !lookup_insert_ne by congruence. exact Hl.
Qed.

Lemma building_insert_other s b p a xs l o c :
  building s b p a xs -> l <> b -> l <> p -> l <> a ->
  building (State (<[l := o]> (heap s)) c) b p a xs.
Proof.
  intros (Hb & Hp & Ha) ? ? ?. unfold building. simpl.
  rewrite !lookup_insert_ne by congruence. auto.
Qed.

Lemma building_set_array s b p a xs ys c :
  building s b p a xs ->
  building (State (<[a := Array ys]> (heap s)) c) b p a ys.
Proof.
  intros (Hb & Hp & Ha). unfold building. simpl.
  rewrite !lookup_insert_ne by (unfold builder_obj, product_obj in *; congruence).
  rewrite lookup_insert_eq. auto.
Qed.

Lemma new_Director_run s :
  exists d,
    new_Director s =
    (Return (VRef d), State (<[d := Instance Director ∅]> (heap s)) (console s)) /\
    heap s !! d = None.
Proof. exists (fresh (dom (heap s))). split; [reflexivity | apply fresh_None]. Qed.

Lemma new_Builder_run s :
  exists b,
    new_Builder s =
    (Return (VRef b), State (<[b := Instance Builder ∅]> (heap s)) (console s)) /\
    heap s !! b = None.
Proof. exists (fresh (dom (heap s))). split; [reflexivity | apply fresh_None]. Qed.

(** The product a builder hands out has the parts it was given, and the
    builder goes on with a new product. *)
Lemma getProduct_parts s b p a xs :
  building s b p a xs ->
  exists s' p' a',
    invoke (VRef b) "getProduct" [] s = (Return (VRef p), s') /\
    product_parts s' (VRef p) = Some xs /\
    building s' b p' a' [] /\
    p' <> p /\
    heap s !! p' = None /\
    console s' = console s /\
    forall l o, l <> b -> heap s !! l = Some o -> heap s' !! l = Some o.
Proof.
  intros (Hb & Hp & Ha).
  destruct (call_getProduct 0 s b p [] Hb) as (p' & a' & Hrun & Hp' & Ha' & Hpa').
  assert (Hbp : b <> p') by congruence. assert (Hba : b <> a') by congruence.
  destruct (building_after_reset s b p' a' Hp' Ha' Hpa' Hbp Hba) as [Hbuild Hframe].
  eexists _, p', a'. split; [exact Hrun|].
  split; [|split; [exact Hbuild|split; [congruence|split; [exact Hp'|split; [reflexivity|exact Hframe]]]]].
  apply (product_parts_intro _ p a xs); apply Hframe; try assumption;
    unfold builder_obj, product_obj in *; congruence.
Qed.

(** A client with a new builder: steps, then retrieval. *)
Lemma build_and_get_run s0 steps :
  exists p s,
    build_and_get steps s0 = (Return (VRef p), s) /\
    product_parts s (VRef p) = Some (map step_part steps) /\
    console s = console s0 /\
    exists a, heap s !! p = Some (product_obj a) /\
              heap s !! a = Some (Array (map step_part steps)).
Proof.
  destruct (new_ConcreteBuilder1_run s0) as (b & p & a & Hnew & Hb & Hp & Ha & Hbp & Hba & Hpa).
  destruct (building_after_reset s0 b p a Hp Ha Hpa Hbp Hba) as [H1 _].
  pose proof (produce_all_run _ b p a [] steps H1) as Hsteps. simpl in Hsteps.
  rewrite (insert_insert_ne _ a b), (insert_insert_ne _ a p), insert_insert_eq in Hsteps
    by congruence.
  set (s2 := State (<[b := builder_obj p]> (<[p := product_obj a]>
                      (<[a := Array (map step_part steps)]> (heap s0)))) (console s0)) in *.
  assert (H2 : building s2 b p a (map step_part steps)).
  { unfold building, s2. simpl.
    rewrite lookup_insert_eq.
    rewrite (lookup_insert_ne _ b p), lookup_insert_eq by congruence.
    rewrite (lookup_insert_ne _ b a), (lookup_insert_ne _ p a), lookup_insert_eq by congruence.
    auto. }
  destruct (getProduct_parts s2 b p a _ H2) as (s3 & p' & a' & Hget & Hparts & _ & _ & _ & Hc & Hframe).
  exists p, s3. split; [|split; [exact Hparts|split; [exact Hc|]]].
  - unfold build_and_get.
    rewrite (bind_Return _ _ _ _ _ Hnew), (bind_Return _ _ _ _ _ Hsteps). exact Hget.
  - destruct H2 as (_ & Hp2 & Ha2). exists a. split; apply Hframe; auto; congruence.
Qed.

(** ** Product1.listParts *)

Lemma call_listParts d s p a xs args :
  heap s !! p = Some (product_obj a) ->
  heap s !! a = Some (Array xs) ->
  call (S d) (VRef p) "listParts" args s =
  (Return VUndefined,
   State (heap s) (console s ++ ["Product parts: " ++ join ", " xs ++ newline])).
Proof.
  intros Hp Ha.
  erewrite call_Instance; [| exact Hp | apply lookup_singleton_ne; discriminate | reflexivity].
  unfold Product1.listParts.
  rewrite (bind_Return _ _ _ _ _ (get_prop_run _ _ _ _ "parts" Hp)).
  rewrite lookup_singleton_eq. simpl default.
  rewrite (bind_Return _ _ _ _ _ (Array_join_run _ _ _ ", " Ha)).
  reflexivity.
Qed.

(** [join] is the usual concatenation with a separator between neighbours. *)
Lemma join_concat sep xs : join sep xs = String.concat sep xs.
Proof.
  induction xs as [|x xs IH]; [reflexivity|].
  destruct xs as [|y xs]; [reflexivity|].
  change (x ++ sep ++ join sep (y :: xs) = x ++ sep ++ String.concat sep (y :: xs)).
  rewrite IH. reflexivity.
Qed.

Lemma string_app_assoc (x y z : string) : (x ++ y) ++ z = x ++ (y ++ z).
Proof.
  induction x as [|c x IH]; [reflexivity|].
  change (String c ((x ++ y) ++ z) = String c (x ++ y ++ z)).
  rewrite IH. reflexivity.
Qed.

(** The part pushed last is described last. *)
Lemma join_snoc sep xs x y :
  join sep ((x :: xs) ++ [y]) = join sep (x :: xs) ++ sep ++ y.
Proof.
  revert x. induction xs as [|z xs IH]; intros x; [reflexivity|].
  change (x ++ sep ++ join sep ((z :: xs) ++ [y]) = (x ++ sep ++ join sep (z :: xs)) ++ sep ++ y).
  rewrite IH, !string_app_assoc. reflexivity.
Qed.

(** A client with a new builder and a new director: recipe, then retrieval. *)
Lemma direct_and_get_run r s0 :
  exists p s,
    direct_and_get r s0 = (Return (VRef p), s) /\
    product_parts s (VRef p) = Some (recipe_parts r).
Proof.
  destruct (new_ConcreteBuilder1_run s0) as (b & p & a & Hnew & Hb & Hp & Ha & Hbp & Hba & Hpa).
  destruct (building_after_reset s0 b p a Hp Ha Hpa Hbp Hba) as [H1 _].
  set (s1 := State (<[b := builder_obj p]> (<[p := product_obj a]>
                      (<[a := Array []]> (heap s0)))) (console s0)) in *.
  destruct (new_Director_run s1) as (d & Hdir & Hd).
  set (s2 := State (<[d := Instance Director ∅]> (heap s1)) (console s1)) in *.
  assert (Hdb : d <> b /\ d <> p /\ d <> a).
  { destruct H1 as (? & ? & ?). repeat split; congruence. }
  destruct Hdb as (Hdb & Hdp & Hda).
  assert (H2 : building s2 b p a []) by (apply building_insert_other; assumption).
  assert (Hd2 : director_holds s2 d VUndefined).
  { left. split; [apply lookup_insert_eq | reflexivity]. }
  pose proof (call_setBuilder 1 s2 d VUndefined [VRef b] Hd2) as Hset. simpl nth in Hset.
  set (s3 := State (<[d := director_obj (VRef b)]> (heap s2)) (console s2)) in *.
  assert (H3 : building s3 b p a []) by (apply building_insert_other; assumption).
  assert (Hd3 : director_holds s3 d (VRef b)) by (right; apply lookup_insert_eq).
  pose proof (call_recipe s3 d (VRef b) r [] Hd3) as Hrec.
  rewrite (produce_all_run s3 b p a [] _ H3) in Hrec. simpl app in Hrec.
  fold (recipe_parts r) in Hrec.
  pose proof (building_set_array s3 b p a [] (recipe_parts r) (console s3) H3) as H4.
  destruct (getProduct_parts _ b p a _ H4) as (s5 & p' & a' & Hget & Hparts & _).
  exists p, s5. split; [|exact Hparts].
  unfold direct_and_get.
  rewrite (bind_Return _ _ _ _ _ Hnew), (bind_Return _ _ _ _ _ Hdir).
  fold s1 s2. unfold invoke at 1.
  rewrite (bind_Return _ _ _ _ _ Hset), (bind_Return _ _ _ _ _ Hrec). exact Hget.
Qed.

(** What the script prints. *)
Example script_output :
  console (snd (script initial_state)) =
  ["Standard basic product:";
   "Product parts: PartA1" ++ newline;
   "Standard full featured product:";
   "Product parts: PartA1, PartB1, PartC1" ++ newline;
   "Custom product:";
   "Product parts: PartA1, PartC1" ++ newline;
   "Remember that all outputs are different, due to the reset() method is called after each getProduct() call."].
Proof. vm_compute. reflexivity. Qed.

(** * The claims *)

(** C1.  Whatever sequence of [producePartA] / [producePartB] /
    [producePartC] calls is made on a new ConcreteBuilder1, the next
    [getProduct()] returns a product whose parts are the identifiers
    'PartA1' / 'PartB1' / 'PartC1' of the calls, one per call and in call
    order; [listParts] on it prints exactly those parts. *)
Theorem parts_in_call_order (s0 : state) (steps : list step) :
  exists p s,
    build_and_get steps s0 = (Return (VRef p), s) /\
    product_parts s (VRef p) = Some (map step_part steps) /\
    invoke (VRef p) "listParts" [] s =
    (Return VUndefined,
     State (heap s)
           (console s ++ ["Product parts: " ++ join ", " (map step_part steps) ++ newline])).
Proof.
  destruct (build_and_get_run s0 steps) as (p & s & Hrun & Hparts & _ & a & Hp & Ha).
  exists p, s. split; [exact Hrun|]. split; [exact Hparts|].
  apply (call_listParts 1 s p a _ [] Hp Ha).
Qed.

(** The example of the specification: A, then C, then A. *)
Example parts_A_C_A :
  exists p s,
    build_and_get [StepA; StepC; StepA] initial_state = (Return (VRef p), s) /\
    product_parts s (VRef p) = Some ["PartA1"; "PartC1"; "PartA1"].
Proof.
  destruct (build_and_get_run initial_state [StepA; StepC; StepA]) as (p & s & H1 & H2 & _).
  exists p, s. split; assumption.
Qed.

(** C2.  In every state, [buildFullFeaturedProduct()] is the three calls
    [producePartA()], [producePartB()], [producePartC()] on the held builder,
    in this order and once each; on a builder that is building it appends the
    three parts; and with a new builder, followed by [getProduct()], it yields
    exactly ['PartA1', 'PartB1', 'PartC1']. *)
Theorem full_featured_product (s : state) (d : loc) (b : value) (args : list value)
    (Hd : director_holds s d b) :
  invoke (VRef d) "buildFullFeaturedProduct" args s =
    (invoke b "producePartA" [] >>
     invoke b "producePartB" [] >>
     invoke b "producePartC" [] >>
     ret VUndefined) s /\
  (forall bl p a xs,
     b = VRef bl -> building s bl p a xs ->
     invoke (VRef d) "buildFullFeaturedProduct" args s =
     (Return VUndefined,
      State (<[a := Array (xs ++ ["PartA1"; "PartB1"; "PartC1"])]> (heap s)) (console s))) /\
  exists p s',
    direct_and_get FullFeaturedProduct s = (Return (VRef p), s') /\
    product_parts s' (VRef p) = Some ["PartA1"; "PartB1"; "PartC1"].
Proof.
  split; [|split].
  - apply (call_recipe s d b FullFeaturedProduct args Hd).
  - intros bl p a xs -> H.
    refine (eq_trans (call_recipe s d (VRef bl) FullFeaturedProduct args Hd) _).
    exact (produce_all_run s bl p a xs (recipe_steps FullFeaturedProduct) H).
  - apply (direct_and_get_run FullFeaturedProduct s).
Qed.

(** C3.  In every state, [buildMinimalViableProduct()] is the single call
    [producePartA()] on the held builder; on a builder that is building it
    appends that one part; and with a new builder, followed by
    [getProduct()], it yields exactly ['PartA1']. *)
Theorem minimal_viable_product (s : state) (d : loc) (b : value) (args : list value)
    (Hd : director_holds s d b) :
  invoke (VRef d) "buildMinimalViableProduct" args s =
    (invoke b "producePartA" [] >> ret VUndefined) s /\
  (forall bl p a xs,
     b = VRef bl -> building s bl p a xs ->
     invoke (VRef d) "buildMinimalViableProduct" args s =
     (Return VUndefined,
      State (<[a := Array (xs ++ ["PartA1"])]> (heap s)) (console s))) /\
  exists p s',
    direct_and_get MinimalViableProduct s = (Return (VRef p), s') /\
    product_parts s' (VRef p) = Some ["PartA1"].
Proof.
  split; [|split].
  - apply (call_recipe s d b MinimalViableProduct args Hd).
  - intros bl p a xs -> H.
    refine (eq_trans (call_recipe s d (VRef bl) MinimalViableProduct args Hd) _).
    exact (produce_all_run s bl p a xs (recipe_steps MinimalViableProduct) H).
  - apply (direct_and_get_run MinimalViableProduct s).
Qed.

(** ** Any sequence of operations on a builder *)

(** Each operation of a builder that is building ends normally and leaves the
    builder building.  No object disappears, and an object that is in the heap
    and is not the current product is neither returned nor taken as the next
    current product. *)
Lemma op_run s b q a ys op :
  building s b q a ys ->
  exists v s' q' a' ys',
    invoke (VRef b) (op_method op) [] s = (Return v, s') /\
    building s' b q' a' ys' /\
    (forall l, is_Some (heap s !! l) -> is_Some (heap s' !! l)) /\
    (forall l, is_Some (heap s !! l) -> l <> q -> v <> VRef l /\ q' <> l).
Proof.
  intros H. pose proof H as (Hb & Hq & Ha).
  destruct op as [|st|].
  - destruct (call_reset 1 s b q [] Hb) as (p' & a' & Hrun & Hp' & Ha' & Hpa').
    assert (Hbp : b <> p') by congruence. assert (Hba : b <> a') by congruence.
    destruct (building_after_reset s b p' a' Hp' Ha' Hpa' Hbp Hba) as [Hbuild Hframe].
    eexists VUndefined, _, p', a', []. split; [exact Hrun|]. split; [exact Hbuild|]. split.
    + intros l [o Hl]. destruct (decide (l = b)) as [->|Hlb].
      * destruct Hbuild as (Hb' & _). rewrite Hb'. eauto.
      * rewrite (Hframe l o Hlb Hl). eauto.
    + intros l [o Hl] _. split; [discriminate | congruence].
  - eexists VUndefined, _, q, a, _. split; [apply (call_step 1 s b q a ys st [] H)|].
    split; [apply building_push; exact H|]. split.
    + intros l Hl. simpl. destruct (decide (a = l)) as [->|Hal].
      * rewrite lookup_insert_eq. eauto.
      * rewrite lookup_insert_ne by exact Hal. exact Hl.
    + intros l _ Hlq. split; [discriminate | congruence].
  - destruct (getProduct_parts s b q a ys H)
      as (s' & p' & a' & Hrun & _ & Hbuild & _ & Hp' & _ & Hframe).
    exists (VRef q), s', p', a', []. split; [exact Hrun|]. split; [exact Hbuild|]. split.
    + intros l [o Hl]. destruct (decide (l = b)) as [->|Hlb].
      * destruct Hbuild as (Hb' & _). rewrite Hb'. eauto.
      * rewrite (Hframe l o Hlb Hl). eauto.
    + intros l [o Hl] Hlq. split; congruence.
Qed.

Lemma run_ops_run ops s b q a ys :
  building s b q a ys ->
  exists vs s' q' a' ys',
    run_ops (VRef b) ops s = (Return vs, s') /\
    building s' b q' a' ys' /\
    (forall l, is_Some (heap s !! l) -> is_Some (heap s' !! l)) /\
    (forall l, is_Some (heap s !! l) -> l <> q -> (VRef l ∉ vs) /\ q' <> l).
Proof.
  revert s q a ys. induction ops as [|op ops IH]; intros s q a ys H.
  - exists [], s, q, a, ys. split; [reflexivity|]. split; [exact H|]. split; [auto|].
    intros l _ Hlq. split; [apply not_elem_of_nil | congruence].
  - destruct (op_run s b q a ys op H) as (v & s1 & q1 & a1 & ys1 & Hop & H1 & Hgrow1 & Hold1).
    destruct (IH s1 q1 a1 ys1 H1) as (vs & s2 & q2 & a2 & ys2 & Hops & H2 & Hgrow2 & Hold2).
    exists (v :: vs), s2, q2, a2, ys2. split; [|split; [exact H2|split]].
    + simpl run_ops. rewrite (bind_Return _ _ _ _ _ Hop), (bind_Return _ _ _ _ _ Hops).
      reflexivity.
    + intros l Hl. apply Hgrow2, Hgrow1, Hl.
    + intros l Hl Hlq. destruct (Hold1 l Hl Hlq) as [Hv Hq1].
      destruct (Hold2 l (Hgrow1 l Hl) (not_eq_sym Hq1)) as [Hvs Hq2].
      split; [|exact Hq2]. apply not_elem_of_cons. split; [congruence | exact Hvs].
Qed.

(** C4.  On a builder that is building, [getProduct()] returns the current
    product; a second [getProduct()] right after it returns another product,
    whose parts sequence is empty, while the first product keeps its parts.
    Whatever operations follow the first retrieval, the builder neither
    returns that product again nor holds it. *)
Theorem consecutive_retrievals (s : state) (b p a : loc) (xs : list string)
    (H : building s b p a xs) :
  exists s1 p' s2,
    invoke (VRef b) "getProduct" [] s = (Return (VRef p), s1) /\
    invoke (VRef b) "getProduct" [] s1 = (Return (VRef p'), s2) /\
    p' <> p /\
    product_parts s2 (VRef p') = Some [] /\
    product_parts s2 (VRef p) = Some xs /\
    forall ops, exists vs s3,
      run_ops (VRef b) ops s1 = (Return vs, s3) /\
      (VRef p ∉ vs) /\
      current_product s3 (VRef b) <> Some (VRef p).
Proof.
  pose proof H as (Hb & Hp & Ha).
  destruct (getProduct_parts s b p a xs H)
    as (s1 & p1 & a1 & Hrun1 & Hparts1 & H1 & Hp1 & Hp1' & _ & Hframe1).
  destruct (getProduct_parts s1 b p1 a1 [] H1)
    as (s2 & p2 & a2 & Hrun2 & Hparts2 & H2 & _ & _ & _ & Hframe2).
  assert (Hpb : p <> b) by (unfold builder_obj, product_obj in *; congruence).
  assert (Hab : a <> b) by (unfold builder_obj in *; congruence).
  exists s1, p1, s2. split; [exact Hrun1|]. split; [exact Hrun2|]. split; [exact Hp1|].
  split; [exact Hparts2|]. split.
  - apply (product_parts_intro s2 p a xs); apply Hframe2, Hframe1; assumption.
  - intros ops.
    destruct (run_ops_run ops s1 b p1 a1 [] H1) as (vs & s3 & q3 & a3 & ys3 & Hops & H3 & _ & Hold).
    exists vs, s3. split; [exact Hops|].
    assert (Hin : is_Some (heap s1 !! p)).
    { rewrite (Hframe1 p _ Hpb Hp). eauto. }
    destruct (Hold p Hin (not_eq_sym Hp1)) as [Hvs Hq3].
    split; [exact Hvs|]. rewrite (building_current_product _ _ _ _ _ H3). congruence.
Qed.

(** C9.  [new ConcreteBuilder1()] yields a builder that already holds a
    product with no parts.  Every sequence of [reset] / [producePartX] /
    [getProduct] calls on it ends normally, with no prior [reset()] needed,
    and leaves the builder holding a product. *)
Theorem fresh_builder_is_ready (s0 : state) (ops : list builder_op) :
  exists b s1,
    new_ConcreteBuilder1 s0 = (Return (VRef b), s1) /\
    (exists p, current_product s1 (VRef b) = Some (VRef p) /\
               product_parts s1 (VRef p) = Some []) /\
    exists vs s2 p' ys,
      run_ops (VRef b) ops s1 = (Return vs, s2) /\
      current_product s2 (VRef b) = Some (VRef p') /\
      product_parts s2 (VRef p') = Some ys.
Proof.
  destruct (new_ConcreteBuilder1_run s0) as (b & p & a & Hnew & Hb & Hp & Ha & Hbp & Hba & Hpa).
  destruct (building_after_reset s0 b p a Hp Ha Hpa Hbp Hba) as [H1 _].
  eexists b, _. split; [exact Hnew|]. split.
  - exists p. split.
    + apply (building_current_product _ _ _ _ _ H1).
    + apply (building_product_parts _ _ _ _ _ H1).
  - destruct (run_ops_run ops _ b p a [] H1) as (vs & s2 & q2 & a2 & ys2 & Hops & H2 & _).
    exists vs, s2, q2, ys2. split; [exact Hops|]. split.
    + apply (building_current_product _ _ _ _ _ H2).
    + apply (building_product_parts _ _ _ _ _ H2).
Qed.

(** ** The abstract methods of Builder *)

Lemma resolve_abstract c st :
  c = Builder \/ c = ConcreteBuilder1 ->
  exists m, resolve c (abstract_method st) = Some m /\
            forall call this args s,
              m call this args s =
              (Throw (Error (must_be_implemented (abstract_method st))), s).
Proof.
  intros [-> | ->]; destruct st; eexists; (split; [reflexivity|]); reflexivity.
Qed.

Lemma kind_of_must_be_implemented st :
  kind_of (Error (must_be_implemented (abstract_method st))) = NotImplemented.
Proof. destruct st; reflexivity. Qed.

(** C5 (what the code does).  On a bare [Builder] instance the abstract
    methods [buildPartA] / [buildPartB] / [buildPartC] throw the 'must be
    implemented' error, but [producePartA] / [producePartB] / [producePartC]
    are not methods of [Builder] at all: calling one fails with the TypeError
    of calling something that is not a function, which is not an error of the
    NotImplemented kind. *)
Theorem bare_builder_step_is_not_a_function (s0 : state) (st : step) :
  exists b s,
    new_Builder s0 = (Return (VRef b), s) /\
    invoke (VRef b) (step_method st) [] s =
      (Throw (TypeError (NotAFunction (step_method st))), s) /\
    kind_of (TypeError (NotAFunction (step_method st))) <> NotImplemented /\
    invoke (VRef b) (abstract_method st) [] s =
      (Throw (Error (must_be_implemented (abstract_method st))), s) /\
    kind_of (Error (must_be_implemented (abstract_method st))) = NotImplemented.
Proof.
  destruct (new_Builder_run s0) as (b & Hnew & _).
  eexists b, _. split; [exact Hnew|].
  set (s := State (<[b := Instance Builder ∅]> (heap s0)) (console s0)).
  assert (Hb : heap s !! b = Some (Instance Builder ∅)) by apply lookup_insert_eq.
  split; [|split; [|split]].
  - apply (call_not_a_function 1 b Builder ∅ _ [] s Hb). destruct st; reflexivity.
  - discriminate.
  - destruct (resolve_abstract Builder st (or_introl eq_refl)) as (m & Hm & Hthrow).
    unfold invoke. rewrite (call_Instance 1 b _ _ _ [] s m Hb (lookup_empty _) Hm).
    apply Hthrow.
  - apply kind_of_must_be_implemented.
Qed.

(** C6.  A director that was never given a builder has no [builder]
    property.  Each of its two recipes then fails, in every state, on reading
    [producePartA] from [undefined]: a TypeError of the InvalidState kind.
    Nothing is changed by the failed call, so that the next call fails alike. *)
Theorem recipe_without_builder (s : state) (d : loc) (r : recipe) (args : list value)
    (Hd : heap s !! d = Some (Instance Director ∅)) :
  invoke (VRef d) (recipe_method r) args s =
    (Throw (TypeError (PropertyOfUndefined "producePartA")), s) /\
  kind_of (TypeError (PropertyOfUndefined "producePartA")) = InvalidState.
Proof.
  split; [|reflexivity].
  assert (H : director_holds s d VUndefined) by (left; auto).
  rewrite (call_recipe s d VUndefined r args H).
  destruct r; reflexivity.
Qed.

(** [new Director()] is such a director. *)
Lemma new_Director_has_no_builder s0 :
  exists d s,
    new_Director s0 = (Return (VRef d), s) /\ heap s !! d = Some (Instance Director ∅).
Proof.
  destruct (new_Director_run s0) as (d & Hnew & _).
  eexists d, _. split; [exact Hnew | apply lookup_insert_eq].
Qed.

(** C8 (amended).  [listParts()] on a product logs one line, 'Product parts: '
    followed by the parts in array order with ', ' between neighbours and a
    line break, and returns [undefined].  That console line is its one
    effect: the state after the call is the state before it with the line
    added to the console, so that the heap (the parts sequence of the product
    and every other object) is unchanged. *)
Theorem listParts_logs_parts (s : state) (p a : loc) (xs : list string)
    (args : list value)
    (Hp : heap s !! p = Some (product_obj a))
    (Ha : heap s !! a = Some (Array xs)) :
  exists s',
    invoke (VRef p) "listParts" args s = (Return VUndefined, s') /\
    s' = State (heap s)
               (console s ++
                [("Product parts: " ++ String.concat ", " xs ++ newline)%string])%list /\
    heap s' = heap s /\
    product_parts s' (VRef p) = Some xs.
Proof.
  eexists. split; [apply (call_listParts 1 s p a xs args Hp Ha)|].
  split; [rewrite join_concat; reflexivity|]. split; [reflexivity|].
  apply (product_parts_intro _ p a xs); assumption.
Qed.

(** C8 as it was stated, with no side effect at all, fails: the call leaves a
    state other than the one it started in, the console having one line
    more. *)
Lemma listParts_changes_the_console :
  snd (invoke (VRef 2) "listParts" [] full_product_state) <> full_product_state.
Proof.
  intros E. apply (f_equal (fun s => length (console s))) in E.
  vm_compute in E. discriminate E.
Qed.

(** C10.  [ConcreteBuilder1] declares no [buildPartA] / [buildPartB] /
    [buildPartC]: on any builder the call reaches the method inherited from
    [Builder] and throws its 'must be implemented' error, changing nothing,
    while the [producePartX] call of the same step ends normally. *)
Theorem concrete_builder_inherits_abstract_methods
    (s : state) (b p a : loc) (xs : list string) (st : step) (args : list value)
    (H : building s b p a xs) :
  invoke (VRef b) (abstract_method st) args s =
    (Throw (Error (must_be_implemented (abstract_method st))), s) /\
  kind_of (Error (must_be_implemented (abstract_method st))) = NotImplemented /\
  assoc (abstract_method st) (declared ConcreteBuilder1) = None /\
  invoke (VRef b) (step_method st) args s =
    (Return VUndefined,
     State (<[a := Array (xs ++ [step_part st])]> (heap s)) (console s)).
Proof.
  pose proof H as (Hb & _).
  split; [|split; [|split]].
  - destruct (resolve_abstract ConcreteBuilder1 st (or_intror eq_refl)) as (m & Hm & Hthrow).
    unfold invoke. erewrite call_Instance; [apply Hthrow | exact Hb | | exact Hm].
    destruct st; apply lookup_singleton_ne; discriminate.
  - apply kind_of_must_be_implemented.
  - destruct st; reflexivity.
  - apply (call_step 1 s b p a xs st args H).
Qed.

(** ** Well-formedness is an invariant *)

Lemma closed_extends h h' v : extends h h' -> closed h v -> closed h' v.
Proof. intros (_ & _ & Hsome). destruct v; simpl; auto. Qed.

Lemma object_ok_extends h h' o : extends h h' -> object_ok h o -> object_ok h' o.
Proof.
  intros Hext Hok. pose proof Hext as (Hprod & Harr & _).
  destruct o as [[] props|xs]; simpl in *; auto.
  - destruct Hok as (a & xs & -> & Ha). destruct (Harr _ _ Ha) as [ys Hys]. eauto.
  - destruct Hok as (p & a & -> & Hp). exists p, a. split; [reflexivity|]. apply Hprod, Hp.
  - destruct Hok as [->|(v & -> & Hv)]; [left; reflexivity|].
    right. exists v. split; [reflexivity|]. eapply closed_extends; eauto.
Qed.

Lemma wf_initial : wf initial_state.
Proof.
  split; simpl; intros *; rewrite lookup_empty; discriminate.
Qed.

Lemma extends_refl h : extends h h.
Proof. repeat split; eauto. Qed.

Lemma extends_trans h1 h2 h3 : extends h1 h2 -> extends h2 h3 -> extends h1 h3.
Proof.
  intros (P1 & A1 & S1) (P2 & A2 & S2). repeat split; auto.
  intros l xs Hl. destruct (A1 _ _ Hl) as [ys Hys]. eauto.
Qed.

(** [push] on an array. *)
Lemma extends_push h a xs ys :
  h !! a = Some (Array xs) -> extends h (<[a := Array ys]> h).
Proof.
  intros Ha. repeat split.
  - intros l props Hl. rewrite lookup_insert_ne by congruence. exact Hl.
  - intros l zs Hl. destruct (decide (a = l)) as [->|Hne].
    + rewrite lookup_insert_eq. eauto.
    + rewrite lookup_insert_ne by exact Hne. eauto.
  - intros l Hl. destruct (decide (a = l)) as [->|Hne].
    + rewrite lookup_insert_eq. eauto.
    + rewrite lookup_insert_ne by exact Hne. exact Hl.
Qed.

Lemma wf_push s a xs ys c :
  wf s -> heap s !! a = Some (Array xs) ->
  wf (State (<[a := Array ys]> (heap s)) c).
Proof.
  intros [Hobj Hprod Harr] Ha.
  pose proof (extends_push _ a xs ys Ha) as Hext.
  split; simpl.
  - intros l o Hl. apply lookup_insert_Some in Hl as [[<- <-]|[Hne Hl]]; [exact I|].
    eapply object_ok_extends; eauto.
  - intros b1 b2 p H1 H2.
    apply lookup_insert_Some in H1 as [[_ ?]|[_ H1]]; [discriminate|].
    apply lookup_insert_Some in H2 as [[_ ?]|[_ H2]]; [discriminate|]. eauto.
  - intros p1 p2 a' H1 H2.
    apply lookup_insert_Some in H1 as [[_ ?]|[_ H1]]; [discriminate|].
    apply lookup_insert_Some in H2 as [[_ ?]|[_ H2]]; [discriminate|]. eauto.
Qed.

(** A new or updated instance of [Builder] or [Director]. *)
Lemma wf_insert_plain s l c props con :
  wf s ->
  c = Builder \/ c = Director ->
  heap s !! l = None \/
    (exists c0 props0, heap s !! l = Some (Instance c0 props0) /\ (c0 = Builder \/ c0 = Director)) ->
  object_ok (heap s) (Instance c props) ->
  wf (State (<[l := Instance c props]> (heap s)) con).
Proof.
  intros [Hobj Hprod Harr] Hc Hl Hok.
  assert (Hext : extends (heap s) (<[l := Instance c props]> (heap s))).
  { repeat split.
    - intros l' props' Hl'. rewrite lookup_insert_ne; [exact Hl'|].
      intros <-. destruct Hl as [Hl|(c0 & props0 & Hl & [-> | ->])]; congruence.
    - intros l' xs Hl'. rewrite lookup_insert_ne; [eauto|].
      intros <-. destruct Hl as [Hl|(c0 & props0 & Hl & _)]; congruence.
    - intros l' Hl'. destruct (decide (l = l')) as [->|Hne].
      + rewrite lookup_insert_eq. eauto.
      + rewrite lookup_insert_ne by exact Hne. exact Hl'. }
  split; simpl.
  - intros l' o Hl'. apply lookup_insert_Some in Hl' as [[<- <-]|[Hne Hl']];
      eapply object_ok_extends; eauto.
  - intros b1 b2 p H1 H2.
    apply lookup_insert_Some in H1 as [[_ E]|[_ H1]];
      [destruct Hc as [-> | ->]; discriminate E|].
    apply lookup_insert_Some in H2 as [[_ E]|[_ H2]];
      [destruct Hc as [-> | ->]; discriminate E|]. eauto.
  - intros p1 p2 a H1 H2.
    apply lookup_insert_Some in H1 as [[_ E]|[_ H1]];
      [destruct Hc as [-> | ->]; discriminate E|].
    apply lookup_insert_Some in H2 as [[_ E]|[_ H2]];
      [destruct Hc as [-> | ->]; discriminate E|]. eauto.
Qed.

Lemma builder_obj_inj p q : builder_obj p = builder_obj q -> p = q.
Proof.
  intros E.
  apply (f_equal (fun o => match o with
                           | Instance _ props => props !! "product"
                           | Array _ => None
                           end)) in E.
  unfold builder_obj in E. cbv beta iota in E.
  rewrite !lookup_singleton_eq in E. congruence.
Qed.

Lemma product_obj_inj a a' : product_obj a = product_obj a' -> a = a'.
Proof.
  intros E.
  apply (f_equal (fun o => match o with
                           | Instance _ props => props !! "parts"
                           | Array _ => None
                           end)) in E.
  unfold product_obj in E. cbv beta iota in E.
  rewrite !lookup_singleton_eq in E. congruence.
Qed.

Lemma wf_builder_product s b p :
  wf s -> heap s !! b = Some (builder_obj p) ->
  exists a xs, building s b p a xs.
Proof.
  intros [Hobj _ _] Hb.
  destruct (Hobj _ _ Hb) as (p' & a & E & Hp). simpl in E.
  assert (p = p') as <-.
  { apply builder_obj_inj. unfold builder_obj. rewrite E. reflexivity. }
  destruct (Hobj _ _ Hp) as (a' & xs & E' & Ha).
  assert (a = a') as <-.
  { apply product_obj_inj. unfold product_obj. rewrite E'. reflexivity. }
  exists a, xs. repeat split; assumption.
Qed.

(** [reset], in the constructor ([b] is new) or later ([b] is a builder). *)
Lemma wf_reset s b p a con :
  wf s ->
  heap s !! p = None -> heap s !! a = None -> p <> a -> b <> p -> b <> a ->
  heap s !! b = None \/ (exists p0, heap s !! b = Some (builder_obj p0)) ->
  let h' := <[b := builder_obj p]> (<[p := product_obj a]> (<[a := Array []]> (heap s))) in
  wf (State h' con) /\ extends (heap s) h'.
Proof.
  intros Hwf Hp Ha Hpa Hbp Hba Hb h'. pose proof Hwf as [Hobj Hprod Harr].
  assert (Hlookup : forall l o,
    h' !! l = Some o ->
    (l = b /\ o = builder_obj p) \/ (l = p /\ o = product_obj a) \/
    (l = a /\ o = Array []) \/
    (l <> b /\ l <> p /\ l <> a /\ heap s !! l = Some o)).
  { intros l o Hl. unfold h' in Hl.
    apply lookup_insert_Some in Hl as [[<- <-]|[? Hl]]; [auto|].
    apply lookup_insert_Some in Hl as [[<- <-]|[? Hl]]; [auto|].
    apply lookup_insert_Some in Hl as [[<- <-]|[? Hl]]; [auto|].
    right; right; right. auto. }
  assert (Hold : forall l o, l <> b -> heap s !! l = Some o -> h' !! l = Some o).
  { intros l o Hlb Hl. unfold h'. rewrite !lookup_insert_ne by congruence. exact Hl. }
  assert (Hb' : h' !! b = Some (builder_obj p)) by apply lookup_insert_eq.
  assert (Hp' : h' !! p = Some (product_obj a)).
  { unfold h'. rewrite lookup_insert_ne, lookup_insert_eq by congruence. reflexivity. }
  assert (Ha' : h' !! a = Some (Array [])).
  { unfold h'. rewrite !lookup_insert_ne, lookup_insert_eq by congruence. reflexivity. }
  assert (Hext : extends (heap s) h').
  { repeat split.
    - intros l props Hl. apply Hold; [|exact Hl].
      intros ->. destruct Hb as [Hb|[p0 Hb]]; unfold builder_obj in *; congruence.
    - intros l xs Hl. exists xs. apply Hold; [|exact Hl].
      intros ->. destruct Hb as [Hb|[p0 Hb]]; unfold builder_obj in *; congruence.
    - intros l [o Hl]. destruct (decide (l = b)) as [->|Hlb]; [eauto|].
      rewrite (Hold l o Hlb Hl). eauto. }
  split; [|exact Hext]. split; simpl.
  - intros l o Hl.
    destruct (Hlookup l o Hl) as [[_ ->]|[[_ ->]|[[_ ->]|(_ & _ & _ & Hl0)]]].
    + exists p, a. split; [reflexivity | exact Hp'].
    + exists a, []. split; [reflexivity | exact Ha'].
    + exact I.
    + eapply object_ok_extends; eauto.
  - intros b1 b2 q H1 H2.
    destruct (Hlookup _ _ H1) as [[-> E1]|[[_ E1]|[[_ E1]|(_ & _ & _ & H1')]]];
      try discriminate E1;
      destruct (Hlookup _ _ H2) as [[-> E2]|[[_ E2]|[[_ E2]|(_ & _ & _ & H2')]]];
      try discriminate E2; try reflexivity.
    + apply builder_obj_inj in E1 as ->.
      destruct (wf_builder_product s b2 p Hwf H2') as (? & ? & _ & Hq & _). congruence.
    + apply builder_obj_inj in E2 as ->.
      destruct (wf_builder_product s b1 p Hwf H1') as (? & ? & _ & Hq & _). congruence.
    + eauto.
  - intros p1 p2 q H1 H2.
    assert (Hfresh : forall l, heap s !! l = Some (product_obj a) -> False).
    { intros l Hl. destruct (Hobj _ _ Hl) as (a0 & xs & E & Ha0). simpl in E.
      assert (a = a0) as <-.
      { apply product_obj_inj. unfold product_obj. rewrite E. reflexivity. }
      congruence. }
    destruct (Hlookup _ _ H1) as [[_ E1]|[[-> E1]|[[_ E1]|(_ & _ & _ & H1')]]];
      try discriminate E1;
      destruct (Hlookup _ _ H2) as [[_ E2]|[[-> E2]|[[_ E2]|(_ & _ & _ & H2')]]];
      try discriminate E2; try reflexivity.
    + apply product_obj_inj in E1 as ->. destruct (Hfresh _ H2').
    + apply product_obj_inj in E2 as ->. destruct (Hfresh _ H1').
    + eauto.
Qed.

Lemma call_shadowed d l c props name args s :
  heap s !! l = Some (Instance c props) ->
  is_Some (props !! name) ->
  call (S d) (VRef l) name args s = (Throw (TypeError (NotAFunction name)), s).
Proof. intros Hl [v Hv]. simpl. rewrite Hl, Hv. reflexivity. Qed.

Lemma wf_director s d props :
  wf s -> heap s !! d = Some (Instance Director props) ->
  exists b, director_holds s d b /\ closed (heap s) b.
Proof.
  intros [Hobj _ _] Hd. destruct (Hobj _ _ Hd) as [->|(v & -> & Hv)].
  - exists VUndefined. split; [left; auto | exact I].
  - exists v. split; [right; exact Hd | exact Hv].
Qed.

(** A building step on any receiver of a well-formed state. *)
Lemma invoke_step_wf s recv st args o s' :
  wf s -> closed (heap s) recv ->
  invoke recv (step_method st) args s = (o, s') ->
  wf s' /\ extends (heap s) (heap s') /\ outcome_ok (heap s') o.
Proof.
  intros Hwf Hrecv Hcall. pose proof Hwf as [Hobj _ _]. unfold invoke in Hcall.
  assert (Hsame : forall e, program_error e ->
            (o, s') = (Throw e, s) ->
            wf s' /\ extends (heap s) (heap s') /\ outcome_ok (heap s') o).
  { intros e He E. injection E as -> ->. auto using extends_refl. }
  destruct recv as [|l].
  { apply (Hsame (TypeError (PropertyOfUndefined (step_method st))) I).
    rewrite <- Hcall. reflexivity. }
  destruct Hrecv as [[c props|xs] Hl].
  2:{ apply (Hsame (TypeError (NotAFunction (step_method st))) I).
      rewrite <- Hcall. simpl. rewrite Hl. reflexivity. }
  destruct (decide (c = ConcreteBuilder1)) as [->|Hc].
  - destruct (Hobj _ _ Hl) as (p & a0 & -> & Hp).
    destruct (wf_builder_product s l p Hwf Hl) as (a & xs & H).
    rewrite (call_step 1 s l p a xs st args H) in Hcall. injection Hcall as <- <-.
    destruct H as (_ & _ & Ha).
    split; [eapply wf_push; eauto|]. split; [eapply extends_push; eauto | exact I].
  - apply (Hsame (TypeError (NotAFunction (step_method st))) I).
    rewrite <- Hcall. apply (call_not_a_function 1 l c props _ args s Hl).
    destruct c, st; try reflexivity; congruence.
Qed.

Lemma produce_all_wf steps s b o s' :
  wf s -> closed (heap s) b ->
  produce_all b steps s = (o, s') ->
  wf s' /\ extends (heap s) (heap s') /\ outcome_ok (heap s') o.
Proof.
  revert s. induction steps as [|st steps IH]; intros s Hwf Hb Hrun.
  - injection Hrun as <- <-.
    split; [exact Hwf | split; [apply extends_refl | exact I]].
  - simpl produce_all in Hrun. unfold bind in Hrun.
    destruct (invoke b (step_method st) [] s) as [o1 s1] eqn:Hstep.
    destruct (invoke_step_wf s b st [] o1 s1 Hwf Hb Hstep) as (Hwf1 & Hext1 & Hok1).
    destruct o1 as [v|e].
    + destruct (IH s1 Hwf1 (closed_extends _ _ _ Hext1 Hb) Hrun) as (Hwf' & Hext' & Hok').
      split; [exact Hwf'|]. split; [eapply extends_trans; eauto | exact Hok'].
    + injection Hrun as <- <-. auto.
Qed.

(** Every method call from a well-formed state, on any receiver, under any
    name and with any arguments, ends in a well-formed state; the result is a
    reference into the heap or [undefined], and a failure is an error of the
    program, never a stack overflow or a reference without an object. *)
Theorem closed_call s recv name args o s' :
  wf s -> closed (heap s) recv -> Forall (closed (heap s)) args ->
  invoke recv name args s = (o, s') ->
  wf s' /\ extends (heap s) (heap s') /\ outcome_ok (heap s') o.
Proof.
  intros Hwf Hrecv Hargs Hcall. pose proof Hwf as [Hobj _ _].
  assert (Hsame : forall e, program_error e ->
            invoke recv name args s = (Throw e, s) ->
            wf s' /\ extends (heap s) (heap s') /\ outcome_ok (heap s') o).
  { intros e He E. rewrite E in Hcall. injection Hcall as <- <-.
    split; [exact Hwf | split; [apply extends_refl | exact He]]. }
  destruct recv as [|l].
  { apply (Hsame (TypeError (PropertyOfUndefined name)) I (call_undefined 1 name args s)). }
  destruct Hrecv as [[c props|xs] Hl].
  2:{ apply (Hsame (TypeError (NotAFunction name)) I). unfold invoke. simpl.
      rewrite Hl. reflexivity. }
  destruct (props !! name) as [v|] eqn:Hshadow.
  { apply (Hsame (TypeError (NotAFunction name)) I). eapply call_shadowed; eauto. }
  destruct (resolve c name) as [m|] eqn:Hm.
  2:{ apply (Hsame (TypeError (NotAFunction name)) I). eapply call_not_a_function; eauto. }
  pose proof (Hobj _ _ Hl) as Hok.
  destruct c; unfold resolve in Hm; simpl in Hm;
    repeat (case_decide; [subst name; clear Hm|]); try discriminate Hm.
  - (* Product1.listParts *)
    destruct Hok as (a & xs & -> & Ha).
    unfold invoke in Hcall. rewrite (call_listParts 1 s l a xs args Hl Ha) in Hcall.
    injection Hcall as <- <-. destruct Hwf. split; [split; assumption|].
    split; [apply extends_refl | exact I].
  - (* Builder.buildPartA *) apply (Hsame (Error (must_be_implemented "buildPartA")) I). unfold invoke.
    erewrite call_Instance; [| exact Hl | exact Hshadow | reflexivity]; reflexivity.
  - apply (Hsame (Error (must_be_implemented "buildPartB")) I). unfold invoke.
    erewrite call_Instance; [| exact Hl | exact Hshadow | reflexivity]; reflexivity.
  - apply (Hsame (Error (must_be_implemented "buildPartC")) I). unfold invoke.
    erewrite call_Instance; [| exact Hl | exact Hshadow | reflexivity]; reflexivity.
  - (* ConcreteBuilder1.reset *)
    destruct Hok as (p & a & -> & Hp).
    destruct (call_reset 1 s l p args Hl) as (p' & a' & Hrun & Hp' & Ha' & Hpa').
    unfold invoke in Hcall. rewrite Hrun in Hcall. injection Hcall as <- <-.
    destruct (wf_reset s l p' a' (console s) Hwf Hp' Ha' Hpa') as [Hwf' Hext];
      [congruence | congruence | right; eauto |].
    split; [exact Hwf' | split; [exact Hext | exact I]].
  - (* ConcreteBuilder1.producePartA *)
    apply (invoke_step_wf s (VRef l) StepA args o s' Hwf); [eexists; eauto | exact Hcall].
  - apply (invoke_step_wf s (VRef l) StepB args o s' Hwf); [eexists; eauto | exact Hcall].
  - apply (invoke_step_wf s (VRef l) StepC args o s' Hwf); [eexists; eauto | exact Hcall].
  - (* ConcreteBuilder1.getProduct *)
    destruct Hok as (p & a & -> & Hp).
    destruct (call_getProduct 0 s l p args Hl) as (p' & a' & Hrun & Hp' & Ha' & Hpa').
    unfold invoke in Hcall. rewrite Hrun in Hcall. injection Hcall as <- <-.
    destruct (wf_reset s l p' a' (console s) Hwf Hp' Ha' Hpa') as [Hwf' Hext];
      [congruence | congruence | right; eauto |].
    split; [exact Hwf' | split; [exact Hext|]].
    destruct Hext as (_ & _ & Hsome). apply Hsome. eauto.
  - (* ConcreteBuilder1 inherits Builder.buildPartA *) apply (Hsame (Error (must_be_implemented "buildPartA")) I). unfold invoke.
    erewrite call_Instance; [| exact Hl | exact Hshadow | reflexivity]; reflexivity.
  - apply (Hsame (Error (must_be_implemented "buildPartB")) I). unfold invoke.
    erewrite call_Instance; [| exact Hl | exact Hshadow | reflexivity]; reflexivity.
  - apply (Hsame (Error (must_be_implemented "buildPartC")) I). unfold invoke.
    erewrite call_Instance; [| exact Hl | exact Hshadow | reflexivity]; reflexivity.
  - (* Director.setBuilder *)
    destruct (wf_director s l props Hwf Hl) as (b & Hb & _).
    unfold invoke in Hcall. rewrite (call_setBuilder 1 s l b args Hb) in Hcall.
    injection Hcall as <- <-.
    assert (Hv : closed (heap s) (nth 0 args VUndefined)).
    { destruct Hargs as [|v args Hv _]; [exact I | exact Hv]. }
    assert (Hwf' : wf (State (<[l := director_obj (nth 0 args VUndefined)]> (heap s))
                             (console s))).
    { apply wf_insert_plain; [exact Hwf | right; reflexivity | right; eauto |].
      right. eauto. }
    split; [exact Hwf'|]. split; [|exact I]. simpl. repeat split.
    + intros l' props' Hl'. rewrite lookup_insert_ne by congruence. exact Hl'.
    + intros l' xs Hl'. rewrite lookup_insert_ne by congruence. eauto.
    + intros l' Hl'. destruct (decide (l = l')) as [->|Hne].
      * rewrite lookup_insert_eq. eauto.
      * rewrite lookup_insert_ne by exact Hne. exact Hl'.
  - (* Director.buildMinimalViableProduct *)
    destruct (wf_director s l props Hwf Hl) as (b & Hb & Hclosed).
    apply (produce_all_wf (recipe_steps MinimalViableProduct) s b o s' Hwf Hclosed).
    rewrite <- Hcall. symmetry. apply (call_recipe s l b MinimalViableProduct args Hb).
  - (* Director.buildFullFeaturedProduct *)
    destruct (wf_director s l props Hwf Hl) as (b & Hb & Hclosed).
    apply (produce_all_wf (recipe_steps FullFeaturedProduct) s b o s' Hwf Hclosed).
    rewrite <- Hcall. symmetry. apply (call_recipe s l b FullFeaturedProduct args Hb).
Qed.

(** The constructors keep states well-formed, too. *)
Lemma new_ConcreteBuilder1_wf s o s' :
  wf s -> new_ConcreteBuilder1 s = (o, s') ->
  wf s' /\ extends (heap s) (heap s') /\ outcome_ok (heap s') o.
Proof.
  intros Hwf Hnew.
  destruct (new_ConcreteBuilder1_run s) as (b & p & a & Hrun & Hb & Hp & Ha & Hbp & Hba & Hpa).
  rewrite Hrun in Hnew. injection Hnew as <- <-.
  destruct (wf_reset s b p a (console s) Hwf Hp Ha Hpa Hbp Hba (or_introl Hb)) as [Hwf' Hext].
  split; [exact Hwf' | split; [exact Hext|]]. simpl. rewrite lookup_insert_eq. eauto.
Qed.

Lemma new_Director_wf s o s' :
  wf s -> new_Director s = (o, s') ->
  wf s' /\ outcome_ok (heap s') o.
Proof.
  intros Hwf Hnew. destruct (new_Director_run s) as (d & Hrun & Hd).
  rewrite Hrun in Hnew. injection Hnew as <- <-. split.
  - apply wf_insert_plain; [exact Hwf | right; reflexivity | left; exact Hd | left; reflexivity].
  - simpl. rewrite lookup_insert_eq. eauto.
Qed.

Lemma new_Builder_wf s o s' :
  wf s -> new_Builder s = (o, s') ->
  wf s' /\ outcome_ok (heap s') o.
Proof.
  intros Hwf Hnew. destruct (new_Builder_run s) as (b & Hrun & Hb).
  rewrite Hrun in Hnew. injection Hnew as <- <-. split.
  - apply wf_insert_plain; [exact Hwf | left; reflexivity | left; exact Hb | reflexivity].
  - simpl. rewrite lookup_insert_eq. eauto.
Qed.

(** ** Two builders *)

(** In a well-formed state two builders have neither a product nor a parts
    array in common. *)
Lemma builders_share_nothing s b1 p1 a1 xs1 b2 p2 a2 xs2 :
  wf s -> b1 <> b2 ->
  building s b1 p1 a1 xs1 -> building s b2 p2 a2 xs2 ->
  p1 <> p2 /\ a1 <> a2.
Proof.
  intros [_ Hprod Harr] Hne (Hb1 & Hp1 & _) (Hb2 & Hp2 & _).
  assert (Hp : p1 <> p2).
  { intros <-. apply Hne. eapply Hprod; eauto. }
  split; [exact Hp|]. intros <-. apply Hp. eapply Harr; eauto.
Qed.

(** C7.  Two different builders of a well-formed state and a director,
    whatever it held before: after [setBuilder(b2)] every sequence of recipe
    calls ends normally and changes, besides the director's [builder]
    property, only the parts array of the product [b2] is building, to which
    it appends the parts of the recipes.  [b1] still holds the same product
    with the same parts. *)
Theorem swapping_builders (s : state) (d b1 p1 a1 b2 p2 a2 : loc)
    (xs1 xs2 : list string) (held : value) (recipes : list recipe)
    (Hwf : wf s) (Hne : b1 <> b2)
    (H1 : building s b1 p1 a1 xs1) (H2 : building s b2 p2 a2 xs2)
    (Hd : director_holds s d held) :
  exists s',
    (invoke (VRef d) "setBuilder" [VRef b2] >> run_recipes (VRef d) recipes) s =
      (Return VUndefined, s') /\
    heap s' = <[a2 := Array (xs2 ++ concat (map recipe_parts recipes))]>
                (<[d := director_obj (VRef b2)]> (heap s)) /\
    building s' b2 p2 a2 (xs2 ++ concat (map recipe_parts recipes)) /\
    building s' b1 p1 a1 xs1 /\
    product_parts s' (VRef p1) = Some xs1.
Proof.
  destruct (builders_share_nothing s b1 p1 a1 xs1 b2 p2 a2 xs2 Hwf Hne H1 H2) as [Hp Ha].
  pose proof (call_setBuilder 1 s d held [VRef b2] Hd) as Hset. simpl nth in Hset.
  set (s1 := State (<[d := director_obj (VRef b2)]> (heap s)) (console s)) in *.
  assert (Hdne : forall b p a xs, building s b p a xs -> d <> b /\ d <> p /\ d <> a).
  { intros b p a xs (Hb & Hp' & Ha').
    assert (Hdir : exists props, heap s !! d = Some (Instance Director props)).
    { destruct Hd as [[Hd _]|Hd]; eauto. }
    destruct Hdir as [props Hdir].
    repeat split; intros ->; rewrite Hdir in *; discriminate. }
  assert (H1' : building s1 b1 p1 a1 xs1).
  { destruct (Hdne _ _ _ _ H1) as (? & ? & ?). apply building_insert_other; assumption. }
  assert (H2' : building s1 b2 p2 a2 xs2).
  { destruct (Hdne _ _ _ _ H2) as (? & ? & ?). apply building_insert_other; assumption. }
  assert (Hd1 : director_holds s1 d (VRef b2)) by (right; apply lookup_insert_eq).
  pose proof (run_recipes_run s1 d b2 p2 a2 xs2 recipes Hd1 H2') as Hrun.
  eexists. split.
  { unfold invoke at 1. rewrite (bind_Return _ _ _ _ _ Hset). exact Hrun. }
  split; [reflexivity|].
  split; [apply (building_set_array s1 b2 p2 a2 xs2 _ _ H2')|].
  assert (H1'' : building (State (<[a2 := Array (xs2 ++ concat (map recipe_parts recipes))]>
                                    (heap s1)) (console s1)) b1 p1 a1 xs1).
  { destruct H1' as (Hb1 & Hp1 & Ha1), H2' as (_ & _ & Ha2).
    apply building_insert_other; [repeat split; assumption | | | ];
      unfold builder_obj, product_obj in *; congruence. }
  split; [exact H1''|]. apply (building_product_parts _ _ _ _ _ H1'').
Qed.

(** * The claims on a concrete state

    In [two_builders_state] the first builder is object 1 and holds product 2
    with the array 3 = ['PartA1']; the second builder is object 4 and holds
    product 5 with the empty array 6; the director is object 7 and holds the
    first builder. *)

Lemma two_builders_building_1 : building two_builders_state 1 2 3 ["PartA1"].
Proof. repeat split. Qed.

Lemma two_builders_building_2 : building two_builders_state 4 5 6 [].
Proof. repeat split. Qed.

Lemma two_builders_director : director_holds two_builders_state 7 (VRef 1).
Proof. right. reflexivity. Qed.

Lemma two_builders_wf : wf two_builders_state.
Proof.
  pose proof wf_initial as W0.
  destruct (new_ConcreteBuilder1_wf initial_state _ _ W0 (surjective_pairing _)) as (W1 & _).
  set (s1 := snd (new_ConcreteBuilder1 initial_state)) in *.
  destruct (new_ConcreteBuilder1_wf s1 _ _ W1 (surjective_pairing _)) as (W2 & _).
  set (s2 := snd (new_ConcreteBuilder1 s1)) in *.
  destruct (new_Director_wf s2 _ _ W2 (surjective_pairing _)) as (W3 & _).
  set (s3 := snd (new_Director s2)) in *.
  assert (C7 : closed (heap s3) (VRef 7)) by (eexists; reflexivity).
  assert (C1 : closed (heap s3) (VRef 1)) by (eexists; reflexivity).
  destruct (closed_call s3 (VRef 7) "setBuilder" [VRef 1] _ _ W3 C7
              (Forall_cons_2 _ _ _ C1 (Forall_nil_2 _)) (surjective_pairing _)) as (W4 & _).
  set (s4 := snd (invoke (VRef 7) "setBuilder" [VRef 1] s3)) in *.
  assert (C1' : closed (heap s4) (VRef 1)) by (eexists; reflexivity).
  destruct (closed_call s4 (VRef 1) "producePartA" [] _ _ W4 C1'
              (Forall_nil_2 _) (surjective_pairing _)) as (W5 & _).
  assert (E : two_builders_state = snd (invoke (VRef 1) "producePartA" [] s4))
    by (vm_compute; reflexivity).
  rewrite E. exact W5.
Qed.

Lemma full_featured_product_witness :
  director_holds two_builders_state 7 (VRef 1) /\
  invoke (VRef 7) "buildFullFeaturedProduct" [] two_builders_state =
    (Return VUndefined,
     State (<[3%positive := Array ["PartA1"; "PartA1"; "PartB1"; "PartC1"]]>
              (heap two_builders_state))
           (console two_builders_state)).
Proof.
  split; [exact two_builders_director|].
  destruct (full_featured_product two_builders_state 7 (VRef 1) [] two_builders_director)
    as (_ & H & _).
  apply (H 1%positive 2%positive 3%positive ["PartA1"] eq_refl two_builders_building_1).
Defined.

Lemma minimal_viable_product_witness :
  director_holds two_builders_state 7 (VRef 1) /\
  invoke (VRef 7) "buildMinimalViableProduct" [] two_builders_state =
    (Return VUndefined,
     State (<[3%positive := Array ["PartA1"; "PartA1"]]> (heap two_builders_state))
           (console two_builders_state)).
Proof.
  split; [exact two_builders_director|].
  destruct (minimal_viable_product two_builders_state 7 (VRef 1) [] two_builders_director)
    as (_ & H & _).
  apply (H 1%positive 2%positive 3%positive ["PartA1"] eq_refl two_builders_building_1).
Defined.

Lemma consecutive_retrievals_witness :
  building two_builders_state 1 2 3 ["PartA1"] /\
  exists s1 p' s2,
    invoke (VRef 1) "getProduct" [] two_builders_state = (Return (VRef 2), s1) /\
    invoke (VRef 1) "getProduct" [] s1 = (Return (VRef p'), s2) /\
    p' <> 2%positive /\
    product_parts s2 (VRef p') = Some [] /\
    product_parts s2 (VRef 2) = Some ["PartA1"].
Proof.
  split; [exact two_builders_building_1|].
  destruct (consecutive_retrievals two_builders_state 1 2 3 ["PartA1"] two_builders_building_1)
    as (s1 & p' & s2 & R1 & R2 & Hne & P' & P & _).
  exists s1, p', s2. repeat split; assumption.
Defined.

Lemma recipe_without_builder_witness :
  heap lone_director_state !! 1%positive = Some (Instance Director ∅) /\
  invoke (VRef 1) "buildFullFeaturedProduct" [] lone_director_state =
    (Throw (TypeError (PropertyOfUndefined "producePartA")), lone_director_state).
Proof.
  split; [reflexivity|].
  apply (recipe_without_builder lone_director_state 1 FullFeaturedProduct [] eq_refl).
Defined.

Lemma swapping_builders_witness :
  wf two_builders_state /\
  1%positive <> 4%positive /\
  building two_builders_state 1 2 3 ["PartA1"] /\
  building two_builders_state 4 5 6 [] /\
  director_holds two_builders_state 7 (VRef 1) /\
  exists s',
    (invoke (VRef 7) "setBuilder" [VRef 4] >>
     run_recipes (VRef 7) [FullFeaturedProduct; MinimalViableProduct]) two_builders_state =
      (Return VUndefined, s') /\
    building s' 4 5 6 ["PartA1"; "PartB1"; "PartC1"; "PartA1"] /\
    building s' 1 2 3 ["PartA1"].
Proof.
  assert (Hne : 1%positive <> 4%positive) by discriminate.
  split; [exact two_builders_wf|]. split; [exact Hne|].
  split; [exact two_builders_building_1|]. split; [exact two_builders_building_2|].
  split; [exact two_builders_director|].
  destruct (swapping_builders two_builders_state 7 1 2 3 4 5 6 ["PartA1"] [] (VRef 1)
              [FullFeaturedProduct; MinimalViableProduct]
              two_builders_wf Hne two_builders_building_1 two_builders_building_2
              two_builders_director)
    as (s' & Hrun & _ & Hb2 & Hb1 & _).
  exists s'. repeat split; first [exact Hrun | apply Hb2 | apply Hb1].
Defined.

Lemma listParts_logs_parts_witness :
  heap full_product_state !! 2%positive = Some (product_obj 3) /\
  heap full_product_state !! 3%positive = Some (Array ["PartA1"; "PartB1"; "PartC1"]) /\
  invoke (VRef 2) "listParts" [] full_product_state =
    (Return VUndefined,
     State (heap full_product_state)
           ["Product parts: PartA1, PartB1, PartC1" ++ newline]) /\
  product_parts full_product_state (VRef 2) = Some ["PartA1"; "PartB1"; "PartC1"].
Proof.
  split; [reflexivity|]. split; [reflexivity|].
  destruct (listParts_logs_parts full_product_state 2 3 ["PartA1"; "PartB1"; "PartC1"] []
              eq_refl eq_refl) as (s' & Hrun & Hs' & _ & Hparts).
  split.
  - rewrite Hrun, Hs'. reflexivity.
  - rewrite Hs' in Hparts. exact Hparts.
Defined.

Lemma concrete_builder_inherits_abstract_methods_witness :
  building two_builders_state 1 2 3 ["PartA1"] /\
  invoke (VRef 1) "buildPartB" [] two_builders_state =
    (Throw (Error "buildPartB() method must be implemented"), two_builders_state).
Proof.
  split; [exact two_builders_building_1|].
  apply (concrete_builder_inherits_abstract_methods
           two_builders_state 1 2 3 ["PartA1"] StepB [] two_builders_building_1).
Defined.

(** * Further properties of the code *)

(** ** reset and getProduct *)

(** [getProduct] returns the held product and leaves the state [reset]
    leaves. *)
Lemma getProduct_is_reset s b p args :
  heap s !! b = Some (builder_obj p) ->
  invoke (VRef b) "getProduct" args s =
  (Return (VRef p), snd (invoke (VRef b) "reset" [] s)).
Proof.
  intros Hb. destruct (call_reset 1 s b p [] Hb) as (p' & a' & Hrun & _).
  unfold invoke. rewrite Hrun. simpl snd.
  erewrite call_Instance; [| exact Hb | apply lookup_singleton_ne; discriminate | reflexivity].
  unfold ConcreteBuilder1.getProduct.
  rewrite (bind_Return _ _ _ _ _ (get_prop_run _ _ _ _ "product" Hb)).
  rewrite lookup_singleton_eq. simpl default.
  assert (Hleaf : call 1 (VRef b) "reset" [] s = call 2 (VRef b) "reset" [] s).
  { symmetry. apply (call_leaf 1). left. reflexivity. }
  rewrite (bind_Return _ _ _ _ _ (eq_trans Hleaf Hrun)). reflexivity.
Qed.

(** [reset()] in the middle of a build: the builder drops the product it was
    building, parts and all, and holds a new product with no parts, which is
    what the next [getProduct()] returns.  The dropped product itself is not
    changed.  The state after [reset()] is the state [getProduct()] would have
    left. *)
Theorem reset_discards_progress (s : state) (b p a : loc) (xs : list string)
    (H : building s b p a xs) :
  exists s' p' a',
    invoke (VRef b) "reset" [] s = (Return VUndefined, s') /\
    building s' b p' a' [] /\
    p' <> p /\
    product_parts s' (VRef p) = Some xs /\
    snd (invoke (VRef b) "getProduct" [] s) = s' /\
    exists s'',
      invoke (VRef b) "getProduct" [] s' = (Return (VRef p'), s'') /\
      product_parts s'' (VRef p') = Some [].
Proof.
  pose proof H as (Hb & Hp & Ha).
  destruct (call_reset 1 s b p [] Hb) as (p' & a' & Hrun & Hp' & Ha' & Hpa').
  assert (Hbp : b <> p') by congruence. assert (Hba : b <> a') by congruence.
  destruct (building_after_reset s b p' a' Hp' Ha' Hpa' Hbp Hba) as [Hbuild Hframe].
  eexists _, p', a'. split; [exact Hrun|]. split; [exact Hbuild|].
  split; [congruence|]. split; [|split].
  - apply (product_parts_intro _ p a xs); apply Hframe; try assumption;
      unfold builder_obj, product_obj in *; congruence.
  - rewrite (getProduct_is_reset s b p [] Hb). unfold invoke. rewrite Hrun. reflexivity.
  - destruct (getProduct_parts _ b p' a' [] Hbuild) as (s'' & ? & ? & Hget & Hparts & _).
    exists s''. split; assumption.
Qed.

(** ** The product that was handed out *)

(** An operation of a builder changes the builder itself and the array of
    its current product, and nothing else that was in the heap; the array of
    the current product afterwards is the same one or a new one. *)
Lemma op_frame s b q a ys op :
  building s b q a ys ->
  exists v s' q' a' ys',
    invoke (VRef b) (op_method op) [] s = (Return v, s') /\
    building s' b q' a' ys' /\
    (a' = a \/ heap s !! a' = None) /\
    (forall l o, l <> b -> l <> a -> heap s !! l = Some o -> heap s' !! l = Some o).
Proof.
  intros H. pose proof H as (Hb & Hq & Ha).
  destruct op as [|st|].
  - destruct (call_reset 1 s b q [] Hb) as (p' & a' & Hrun & Hp' & Ha' & Hpa').
    assert (Hbp : b <> p') by congruence. assert (Hba : b <> a') by congruence.
    destruct (building_after_reset s b p' a' Hp' Ha' Hpa' Hbp Hba) as [Hbuild Hframe].
    eexists VUndefined, _, p', a', []. split; [exact Hrun|]. split; [exact Hbuild|].
    split; [right; exact Ha'|]. intros l o Hlb _ Hl. apply Hframe; assumption.
  - eexists VUndefined, _, q, a, _. split; [apply (call_step 1 s b q a ys st [] H)|].
    split; [apply building_push; exact H|]. split; [left; reflexivity|].
    intros l o _ Hla Hl. simpl. rewrite lookup_insert_ne by congruence. exact Hl.
  - destruct (call_getProduct 0 s b q [] Hb) as (p' & a' & Hrun & Hp' & Ha' & Hpa').
    assert (Hbp : b <> p') by congruence. assert (Hba : b <> a') by congruence.
    destruct (building_after_reset s b p' a' Hp' Ha' Hpa' Hbp Hba) as [Hbuild Hframe].
    eexists (VRef q), _, p', a', []. split; [exact Hrun|]. split; [exact Hbuild|].
    split; [right; exact Ha'|]. intros l o Hlb _ Hl. apply Hframe; assumption.
Qed.

Lemma run_ops_frame ops s b q a ys :
  building s b q a ys ->
  exists vs s',
    run_ops (VRef b) ops s = (Return vs, s') /\
    forall l o, l <> b -> l <> a -> heap s !! l = Some o -> heap s' !! l = Some o.
Proof.
  revert s q a ys. induction ops as [|op ops IH]; intros s q a ys H.
  - exists [], s. split; [reflexivity | auto].
  - destruct (op_frame s b q a ys op H) as (v & s1 & q1 & a1 & ys1 & Hop & H1 & Ha1 & Hf1).
    destruct (IH s1 q1 a1 ys1 H1) as (vs & s2 & Hops & Hf2).
    exists (v :: vs), s2. split.
    + simpl run_ops. rewrite (bind_Return _ _ _ _ _ Hop), (bind_Return _ _ _ _ _ Hops).
      reflexivity.
    + intros l o Hlb Hla Hl. apply Hf2; [exact Hlb | | apply Hf1; assumption].
      destruct Ha1 as [-> | Hnew]; congruence.
Qed.

(** Once [getProduct()] has returned a product, nothing the builder does
    afterwards ([reset], [producePartX], [getProduct], in any number and
    order) changes the parts of that product. *)
Theorem retrieved_product_is_left_alone (s : state) (b p a : loc) (xs : list string)
    (H : building s b p a xs) :
  exists s1,
    invoke (VRef b) "getProduct" [] s = (Return (VRef p), s1) /\
    forall ops, exists vs s2,
      run_ops (VRef b) ops s1 = (Return vs, s2) /\
      product_parts s2 (VRef p) = Some xs.
Proof.
  pose proof H as (Hb & Hp & Ha).
  destruct (call_getProduct 0 s b p [] Hb) as (p1 & a1 & Hrun & Hp1 & Ha1 & Hpa1).
  assert (Hbp : b <> p1) by congruence. assert (Hba : b <> a1) by congruence.
  destruct (building_after_reset s b p1 a1 Hp1 Ha1 Hpa1 Hbp Hba) as [H1 Hframe].
  assert (Hpb : p <> b) by (unfold builder_obj, product_obj in *; congruence).
  assert (Hab : a <> b) by (unfold builder_obj in *; congruence).
  eexists. split; [exact Hrun|]. intros ops.
  destruct (run_ops_frame ops _ b p1 a1 [] H1) as (vs & s2 & Hops & Hf).
  exists vs, s2. split; [exact Hops|].
  apply (product_parts_intro s2 p a xs); apply Hf; try apply Hframe;
    try assumption; congruence.
Qed.

(** ** Failing calls *)

Lemma bind_Throw {A B} (m : M A) (k : A -> M B) s e s' :
  m s = (Throw e, s') -> bind m k s = (Throw e, s').
Proof. intros H. unfold bind. rewrite H. reflexivity. Qed.

(** In a well-formed state the receiver of a building step is a builder that
    is building, or the call throws and changes nothing. *)
Lemma invoke_step_cases_wf s recv st args :
  wf s ->
  (exists bl p a xs, recv = VRef bl /\ building s bl p a xs) \/
  ((forall bl p, recv = VRef bl -> heap s !! bl <> Some (builder_obj p)) /\
   invoke recv (step_method st) args s =
   (Throw (no_such_method s recv (step_method st)), s)).
Proof.
  intros Hwf. destruct recv as [|l].
  { right. split; [intros bl p E; discriminate E | reflexivity]. }
  destruct (heap s !! l) as [[c props|xs]|] eqn:Hl.
  - destruct (decide (c = ConcreteBuilder1)) as [->|Hc].
    + left. destruct Hwf as [Hobj ? ?]. destruct (Hobj _ _ Hl) as (p & a0 & -> & Hp).
      destruct (wf_builder_product s l p) as (a & xs & H); [split; assumption | exact Hl |].
      exists l, p, a, xs. split; [reflexivity | exact H].
    + right. split.
      * intros bl p E. injection E as <-. rewrite Hl. unfold builder_obj. congruence.
      * unfold no_such_method. rewrite Hl.
        apply (call_not_a_function 1 l c props _ args s Hl).
        destruct c, st; try reflexivity; congruence.
  - right. split.
    + intros bl p E. injection E as <-. rewrite Hl. discriminate.
    + unfold no_such_method, invoke. simpl. rewrite Hl. reflexivity.
  - right. split.
    + intros bl p E. injection E as <-. rewrite Hl. discriminate.
    + unfold no_such_method, invoke. simpl. rewrite Hl. reflexivity.
Qed.

Lemma director_holds_closed s d b :
  wf s -> director_holds s d b -> closed (heap s) b.
Proof.
  intros [Hobj _ _] [[_ ->]|Hd]; [exact I|].
  destruct (Hobj _ _ Hd) as [E|(v & E & Hv)]; simpl in E.
  - apply (f_equal (fun m => m !! "builder")) in E.
    rewrite lookup_singleton_eq, lookup_empty in E. discriminate.
  - apply (f_equal (fun m => m !! "builder")) in E.
    rewrite !lookup_singleton_eq in E. injection E as ->. exact Hv.
Qed.

(** A recipe on a well-formed state is all or nothing.  If the director holds
    a ConcreteBuilder1, the recipe ends normally and appends all its parts to
    the product the builder is building.  Otherwise (no builder was set, or
    [setBuilder] was given something else, which it accepts unchecked) the
    first step [producePartA] fails with a TypeError and nothing is
    changed.  No recipe stops half way. *)
Theorem recipe_all_or_nothing (s : state) (d : loc) (b : value) (r : recipe)
    (args : list value) (Hwf : wf s) (Hd : director_holds s d b) :
  (exists bl p a xs,
     b = VRef bl /\ building s bl p a xs /\
     invoke (VRef d) (recipe_method r) args s =
     (Return VUndefined,
      State (<[a := Array (xs ++ recipe_parts r)]> (heap s)) (console s))) \/
  ((forall bl p, b = VRef bl -> heap s !! bl <> Some (builder_obj p)) /\
   invoke (VRef d) (recipe_method r) args s =
   (Throw (TypeError match b with
                     | VUndefined => PropertyOfUndefined "producePartA"
                     | VRef _ => NotAFunction "producePartA"
                     end), s)).
Proof.
  rewrite (call_recipe s d b r args Hd).
  destruct (invoke_step_cases_wf s b StepA [] Hwf) as [(bl & p & a & xs & -> & H)|[Hnot Hthrow]].
  - left. exists bl, p, a, xs. split; [reflexivity|]. split; [exact H|].
    apply (produce_all_run s bl p a xs (recipe_steps r) H).
  - right. split; [exact Hnot|].
    assert (E : TypeError match b with
                          | VUndefined => PropertyOfUndefined "producePartA"
                          | VRef _ => NotAFunction "producePartA"
                          end = no_such_method s b "producePartA").
    { pose proof (director_holds_closed s d b Hwf Hd) as Hc.
      destruct b as [|l]; [reflexivity|]. destruct Hc as [o Ho].
      unfold no_such_method. rewrite Ho. reflexivity. }
    rewrite E. destruct r; apply (bind_Throw _ _ _ _ _ Hthrow).
Qed.

(** In a well-formed state a call of a method of the program that throws has
    changed nothing: whatever the receiver and the arguments, and whichever of
    the method names of the four classes is called, the state after the
    failed call is the state before it. *)
Theorem failed_call_changes_nothing (s : state) (recv : value) (name : string)
    (args : list value) (e : error) (s' : state)
    (Hname : is_program_method name = true)
    (Hwf : wf s) (Hcall : invoke recv name args s = (Throw e, s')) :
  s' = s.
Proof.
  pose proof Hwf as [Hobj _ _].
  assert (Hsame : forall e0, invoke recv name args s = (Throw e0, s) -> s' = s).
  { intros e0 E. rewrite E in Hcall. injection Hcall as _ <-. reflexivity. }
  destruct recv as [|l]; [apply (Hsame _ (call_undefined 1 name args s))|].
  destruct (heap s !! l) as [[c props|xs]|] eqn:Hl.
  2:{ apply (Hsame (TypeError (NotAFunction name))). unfold invoke. simpl.
      rewrite Hl. reflexivity. }
  2:{ apply (Hsame (NoSuchObject l)). unfold invoke. simpl. rewrite Hl. reflexivity. }
  destruct (props !! name) as [v|] eqn:Hshadow.
  { apply (Hsame (TypeError (NotAFunction name))). eapply call_shadowed; eauto. }
  destruct (resolve c name) as [m|] eqn:Hm.
  2:{ apply (Hsame (TypeError (NotAFunction name))). eapply call_not_a_function; eauto. }
  pose proof (Hobj _ _ Hl) as Hok.
  assert (Hstep : forall st, name = step_method st -> c = ConcreteBuilder1 -> s' = s).
  { intros st -> ->. destruct Hok as (p & a0 & -> & Hp).
    destruct (wf_builder_product s l p Hwf Hl) as (a & xs & H).
    unfold invoke in Hcall. rewrite (call_step 1 s l p a xs st args H) in Hcall.
    discriminate Hcall. }
  assert (Hrecipe : forall r, name = recipe_method r -> c = Director -> s' = s).
  { intros r -> ->. destruct (wf_director s l props Hwf Hl) as (b & Hb & _).
    rewrite (call_recipe s l b r args Hb) in Hcall.
    destruct (invoke_step_cases_wf s b StepA [] Hwf)
      as [(bl & p & a & xs & -> & H)|[_ Hthrow]].
    - rewrite (produce_all_run s bl p a xs (recipe_steps r) H) in Hcall.
      discriminate Hcall.
    - assert (E : produce_all b (recipe_steps r) s =
                  (Throw (no_such_method s b "producePartA"), s))
        by (destruct r; apply (bind_Throw _ _ _ _ _ Hthrow)).
      rewrite E in Hcall. injection Hcall as _ <-. reflexivity. }
  destruct c; unfold resolve in Hm; simpl in Hm;
    repeat (case_decide; [subst name; clear Hm|]); try discriminate Hm.
  - destruct Hok as (a & xs & -> & Ha).
    unfold invoke in Hcall. rewrite (call_listParts 1 s l a xs args Hl Ha) in Hcall.
    discriminate Hcall.
  - apply (Hsame (Error (must_be_implemented "buildPartA"))). unfold invoke.
    erewrite call_Instance; [| exact Hl | exact Hshadow | reflexivity]; reflexivity.
  - apply (Hsame (Error (must_be_implemented "buildPartB"))). unfold invoke.
    erewrite call_Instance; [| exact Hl | exact Hshadow | reflexivity]; reflexivity.
  - apply (Hsame (Error (must_be_implemented "buildPartC"))). unfold invoke.
    erewrite call_Instance; [| exact Hl | exact Hshadow | reflexivity]; reflexivity.
  - destruct Hok as (p & a & -> & Hp).
    destruct (call_reset 1 s l p args Hl) as (p' & a' & Hrun & _).
    unfold invoke in Hcall. rewrite Hrun in Hcall. discriminate Hcall.
  - apply (Hstep StepA); reflexivity.
  - apply (Hstep StepB); reflexivity.
  - apply (Hstep StepC); reflexivity.
  - destruct Hok as (p & a & -> & Hp).
    destruct (call_getProduct 0 s l p args Hl) as (p' & a' & Hrun & _).
    unfold invoke in Hcall. rewrite Hrun in Hcall. discriminate Hcall.
  - apply (Hsame (Error (must_be_implemented "buildPartA"))). unfold invoke.
    erewrite call_Instance; [| exact Hl | exact Hshadow | reflexivity]; reflexivity.
  - apply (Hsame (Error (must_be_implemented "buildPartB"))). unfold invoke.
    erewrite call_Instance; [| exact Hl | exact Hshadow | reflexivity]; reflexivity.
  - apply (Hsame (Error (must_be_implemented "buildPartC"))). unfold invoke.
    erewrite call_Instance; [| exact Hl | exact Hshadow | reflexivity]; reflexivity.
  - destruct (wf_director s l props Hwf Hl) as (b & Hb & _).
    unfold invoke in Hcall. rewrite (call_setBuilder 1 s l b args Hb) in Hcall.
    discriminate Hcall.
  - apply (Hrecipe MinimalViableProduct); reflexivity.
  - apply (Hrecipe FullFeaturedProduct); reflexivity.
Qed.

(** ** Director.setBuilder *)

(** [setBuilder] keeps its first argument and forgets what the director held:
    of two calls in a row only the second counts.  It takes anything,
    [undefined] included: after [setBuilder()] without an argument the
    director is back to having no builder, and a recipe fails on reading
    [producePartA] from [undefined]. *)
Theorem setBuilder_replaces_builder (s : state) (d : loc) (held v w : value)
    (rest rest' : list value) (r : recipe) (Hd : director_holds s d held) :
  invoke (VRef d) "setBuilder" (v :: rest) s =
    (Return VUndefined, State (<[d := director_obj v]> (heap s)) (console s)) /\
  (invoke (VRef d) "setBuilder" (w :: rest') >>
   invoke (VRef d) "setBuilder" (v :: rest)) s =
    invoke (VRef d) "setBuilder" (v :: rest) s /\
  (invoke (VRef d) "setBuilder" [] >> invoke (VRef d) (recipe_method r) []) s =
    (Throw (TypeError (PropertyOfUndefined "producePartA")),
     State (<[d := director_obj VUndefined]> (heap s)) (console s)).
Proof.
  assert (Hset : forall args,
            invoke (VRef d) "setBuilder" args s =
            (Return VUndefined,
             State (<[d := director_obj (nth 0 args VUndefined)]> (heap s)) (console s)))
    by (intros args; apply (call_setBuilder 1 s d held args Hd)).
  assert (Hheld : forall u,
            director_holds (State (<[d := director_obj u]> (heap s)) (console s)) d u)
    by (intros u; right; apply lookup_insert_eq).
  split; [apply (Hset (v :: rest))|]. split.
  - rewrite (bind_Return _ _ _ _ _ (Hset (w :: rest'))), (Hset (v :: rest)). simpl nth.
    unfold invoke. rewrite (call_setBuilder 1 _ d w (v :: rest) (Hheld w)).
    simpl. rewrite insert_insert_eq. reflexivity.
  - rewrite (bind_Return _ _ _ _ _ (Hset [])). simpl nth.
    rewrite (call_recipe _ d VUndefined r [] (Hheld VUndefined)).
    destruct r; reflexivity.
Qed.

(** ** How the recipes and the steps compose *)

(** The full recipe is the minimal recipe followed by [producePartB] and
    [producePartC] on the held builder, in every state; if the minimal recipe
    fails, so does the full one, with the same error. *)
Theorem full_recipe_extends_minimal (s : state) (d : loc) (b : value)
    (args : list value) (Hd : director_holds s d b) :
  invoke (VRef d) "buildFullFeaturedProduct" args s =
  (invoke (VRef d) "buildMinimalViableProduct" [] >>
   invoke b "producePartB" [] >>
   invoke b "producePartC" [] >>
   ret VUndefined) s.
Proof.
  refine (eq_trans (call_recipe s d b FullFeaturedProduct args Hd) _). symmetry.
  etransitivity.
  { apply bind_cong; [apply (call_recipe s d b MinimalViableProduct [] Hd)|].
    intros; reflexivity. }
  simpl produce_all. rewrite bind_assoc. reflexivity.
Qed.

(** Building steps on two different builders of a well-formed state do not
    interfere: in either order the two sequences of steps end normally in the
    same state, each builder's product having received its own parts. *)
Theorem builders_do_not_interfere (s : state) (b1 p1 a1 b2 p2 a2 : loc)
    (xs1 xs2 : list string) (steps1 steps2 : list step)
    (Hwf : wf s) (Hne : b1 <> b2)
    (H1 : building s b1 p1 a1 xs1) (H2 : building s b2 p2 a2 xs2) :
  (produce_all (VRef b1) steps1 >> produce_all (VRef b2) steps2) s =
    (Return VUndefined,
     State (<[a2 := Array (xs2 ++ map step_part steps2)]>
              (<[a1 := Array (xs1 ++ map step_part steps1)]> (heap s)))
           (console s)) /\
  (produce_all (VRef b2) steps2 >> produce_all (VRef b1) steps1) s =
  (produce_all (VRef b1) steps1 >> produce_all (VRef b2) steps2) s.
Proof.
  destruct (builders_share_nothing s b1 p1 a1 xs1 b2 p2 a2 xs2 Hwf Hne H1 H2) as [Hp Ha].
  assert (Hother : forall b p a xs b' p' a' xs' ys,
            building s b p a xs -> building s b' p' a' xs' -> a <> a' ->
            building (State (<[a := Array ys]> (heap s)) (console s)) b' p' a' xs').
  { intros b p a xs b' p' a' xs' ys (_ & _ & Ha0) (Hb' & Hp' & Ha') Hne'.
    apply building_insert_other; [repeat split; assumption | | | exact Hne'];
      unfold builder_obj, product_obj in *; congruence. }
  assert (E12 : (produce_all (VRef b1) steps1 >> produce_all (VRef b2) steps2) s =
    (Return VUndefined,
     State (<[a2 := Array (xs2 ++ map step_part steps2)]>
              (<[a1 := Array (xs1 ++ map step_part steps1)]> (heap s)))
           (console s))).
  { rewrite (bind_Return _ _ _ _ _ (produce_all_run s b1 p1 a1 xs1 steps1 H1)).
    exact (produce_all_run (State _ _) b2 p2 a2 xs2 steps2
             (Hother b1 p1 a1 xs1 b2 p2 a2 xs2 _ H1 H2 Ha)). }
  split; [exact E12|]. rewrite E12.
  rewrite (bind_Return _ _ _ _ _ (produce_all_run s b2 p2 a2 xs2 steps2 H2)).
  rewrite (produce_all_run (State _ _) b1 p1 a1 xs1 steps1
             (Hother b2 p2 a2 xs2 b1 p1 a1 xs1 _ H2 H1 (not_eq_sym Ha))).
  simpl. rewrite (insert_insert_ne _ a1 a2) by exact Ha. reflexivity.
Qed.

(** ** What listParts prints *)

Lemma string_cons_app c (x y : string) : String c x ++ y = String c (x ++ y).
Proof. reflexivity. Qed.

Lemma string_app_nil_r (x : string) : x ++ EmptyString = x.
Proof.
  induction x as [|c x IH]; [reflexivity|]. rewrite string_cons_app, IH. reflexivity.
Qed.

Lemma string_length_app (x y : string) :
  String.length (x ++ y) = String.length x + String.length y.
Proof.
  induction x as [|c x IH]; [reflexivity|].
  rewrite string_cons_app. simpl. rewrite IH. reflexivity.
Qed.

Lemma string_app_inv_head (x y z : string) : x ++ y = x ++ z -> y = z.
Proof.
  induction x as [|c x IH]; intros H; [exact H|].
  rewrite !string_cons_app in H. injection H as H. apply IH, H.
Qed.

Lemma string_app_inv_tail (x y z : string) : x ++ z = y ++ z -> x = y.
Proof.
  revert y. induction x as [|c x IH]; intros [|c' y] H.
  - reflexivity.
  - apply (f_equal String.length) in H.
    change (String.length z = S (String.length (y ++ z))) in H.
    rewrite string_length_app in H. lia.
  - apply (f_equal String.length) in H.
    change (S (String.length (x ++ z)) = String.length z) in H.
    rewrite string_length_app in H. lia.
  - rewrite !string_cons_app in H. injection H as -> H. f_equal. apply IH, H.
Qed.

Lemma join_cons sep x xs :
  join sep (x :: xs) =
  x ++ match xs with
       | [] => EmptyString
       | _ :: _ => sep ++ join sep xs
       end.
Proof. destruct xs; [simpl; rewrite string_app_nil_r|]; reflexivity. Qed.

(** The joined identifiers of two sequences of steps are equal only if the
    sequences are. *)
Lemma join_parts_inj xs ys :
  join ", " (map step_part xs) = join ", " (map step_part ys) -> xs = ys.
Proof.
  revert ys. induction xs as [|x xs IH]; intros [|y ys] H.
  - reflexivity.
  - exfalso. simpl map in H. rewrite join_cons in H.
    destruct y; simpl step_part in H; rewrite !string_cons_app in H; discriminate H.
  - exfalso. simpl map in H. rewrite join_cons in H.
    destruct x; simpl step_part in H; rewrite !string_cons_app in H; discriminate H.
  - simpl map in H. rewrite !join_cons in H.
    assert (Hxy : x = y /\
              match map step_part xs with
              | [] => EmptyString
              | _ :: _ => ", " ++ join ", " (map step_part xs)
              end =
              match map step_part ys with
              | [] => EmptyString
              | _ :: _ => ", " ++ join ", " (map step_part ys)
              end).
    { destruct x, y; simpl step_part in H; rewrite !string_cons_app in H;
        first [discriminate H | injection H as H; split; [reflexivity | exact H]]. }
    destruct Hxy as [-> Htail]. f_equal. apply IH.
    destruct xs as [|x' xs], ys as [|y' ys]; simpl map in *;
      rewrite ?string_cons_app in Htail;
      first [reflexivity | discriminate Htail | injection Htail as Htail; exact Htail].
Qed.

Lemma build_and_list_run s steps :
  exists s',
    build_and_list steps s = (Return VUndefined, s') /\
    console s' =
      (console s ++ [("Product parts: " ++ join ", " (map step_part steps) ++ newline)%string])%list.
Proof.
  destruct (build_and_get_run s steps) as (p & s1 & Hrun & _ & Hc & a & Hp & Ha).
  eexists. split.
  - unfold build_and_list. rewrite (bind_Return _ _ _ _ _ Hrun).
    apply (call_listParts 1 s1 p a _ [] Hp Ha).
  - simpl. rewrite Hc. reflexivity.
Qed.

(** The line [listParts] prints tells the steps apart: if building by the
    steps [xs] and building by the steps [ys], from the same state, leave the
    same console, then [xs] and [ys] are the same sequence of steps. *)
Theorem printed_parts_determine_steps (s : state) (xs ys : list step)
    (H : console (snd (build_and_list xs s)) = console (snd (build_and_list ys s))) :
  xs = ys.
Proof.
  destruct (build_and_list_run s xs) as (s1 & E1 & C1).
  destruct (build_and_list_run s ys) as (s2 & E2 & C2).
  rewrite E1, E2 in H. simpl in H. rewrite C1, C2 in H.
  apply app_inv_head in H. injection H as H.
  apply string_app_inv_head, string_app_inv_tail in H.
  apply join_parts_inj, H.
Qed.

(** ** clientCode *)

Lemma building_same_heap s s' b p a xs :
  heap s' = heap s -> building s b p a xs -> building s' b p a xs.
Proof. intros E H. unfold building. rewrite E. exact H. Qed.

Lemma director_same_object s s' d v :
  heap s' !! d = heap s !! d -> director_holds s d v -> director_holds s' d v.
Proof. intros E H. unfold director_holds. rewrite E. exact H. Qed.

Lemma director_is_no_builder s d v b p a xs :
  director_holds s d v -> building s b p a xs -> d <> b /\ d <> p /\ d <> a.
Proof.
  intros Hd (Hb & Hp & Ha).
  assert (Hdir : exists props, heap s !! d = Some (Instance Director props)).
  { destruct Hd as [[Hd _]|Hd]; eauto. }
  destruct Hdir as [props Hdir].
  repeat split; intros ->; rewrite Hdir in *; discriminate.
Qed.

(** [director.buildX();] in [clientCode]. *)
Lemma client_recipe s b p a d r :
  building s b p a [] -> director_holds s d (VRef b) ->
  exists s',
    invoke (VRef d) (recipe_method r) [] s = (Return VUndefined, s') /\
    building s' b p a (recipe_parts r) /\
    director_holds s' d (VRef b) /\
    console s' = console s.
Proof.
  intros H Hd. eexists. split; [|split; [|split]].
  - rewrite (call_recipe s d (VRef b) r [] Hd).
    apply (produce_all_run s b p a [] (recipe_steps r) H).
  - apply (building_set_array s b p a [] _ _ H).
  - apply (building_director s b p a [] d _ _ H Hd).
  - reflexivity.
Qed.

(** [builder.producePartX();] in [clientCode]. *)
Lemma client_step s b p a xs d st :
  building s b p a xs -> director_holds s d (VRef b) ->
  exists s',
    invoke (VRef b) (step_method st) [] s = (Return VUndefined, s') /\
    building s' b p a (xs ++ [step_part st]) /\
    director_holds s' d (VRef b) /\
    console s' = console s.
Proof.
  intros H Hd. eexists. split; [|split; [|split]].
  - apply (call_step 1 s b p a xs st [] H).
  - apply (building_push s b p a xs _ H).
  - apply (building_director s b p a xs d _ _ H Hd).
  - reflexivity.
Qed.

(** [builder.getProduct().listParts();] in [clientCode]. *)
Lemma client_retrieve s b p a xs d :
  building s b p a xs -> director_holds s d (VRef b) ->
  exists s' p' a',
    (let* product := invoke (VRef b) "getProduct" [] in
     invoke product "listParts" []) s = (Return VUndefined, s') /\
    building s' b p' a' [] /\
    director_holds s' d (VRef b) /\
    console s' = (console s ++ [("Product parts: " ++ join ", " xs ++ newline)%string])%list.
Proof.
  intros H Hd. pose proof H as (Hb & Hp & Ha).
  destruct (director_is_no_builder s d _ b p a xs Hd H) as (Hdb & _ & _).
  destruct (getProduct_parts s b p a xs H)
    as (s1 & p1 & a1 & Hget & _ & H1 & _ & _ & Hc & Hframe).
  assert (Hpb : p <> b) by (unfold builder_obj, product_obj in *; congruence).
  assert (Hab : a <> b) by (unfold builder_obj in *; congruence).
  pose proof (call_listParts 1 s1 p a xs [] (Hframe _ _ Hpb Hp) (Hframe _ _ Hab Ha)) as Hlist.
  eexists _, p1, a1. split; [|split; [|split]].
  - rewrite (bind_Return _ _ _ _ _ Hget). exact Hlist.
  - apply (building_same_heap s1); [reflexivity | exact H1].
  - apply (director_same_object s); [|exact Hd]. simpl.
    destruct Hd as [[Hd _]|Hd]; rewrite Hd; apply Hframe; assumption.
  - simpl. rewrite Hc. reflexivity.
Qed.

(** [console.log(line);] in [clientCode]. *)
Lemma client_log s b p a xs d line :
  building s b p a xs -> director_holds s d (VRef b) ->
  exists s',
    console_log line s = (Return tt, s') /\
    building s' b p a xs /\
    director_holds s' d (VRef b) /\
    console s' = (console s ++ [line])%list.
Proof.
  intros H Hd. eexists. split; [reflexivity|]. split; [|split; [|reflexivity]].
  - apply (building_same_heap s); [reflexivity | exact H].
  - apply (director_same_object s); [reflexivity | exact Hd].
Qed.

Lemma clientCode_run s d held :
  director_holds s d held ->
  exists s' b p a,
    clientCode (VRef d) s = (Return VUndefined, s') /\
    console s' =
      (console s ++
       ["Standard basic product:";
        ("Product parts: PartA1" ++ newline)%string;
        "Standard full featured product:";
        ("Product parts: PartA1, PartB1, PartC1" ++ newline)%string;
        "Custom product:";
        ("Product parts: PartA1, PartC1" ++ newline)%string;
        "Remember that all outputs are different, due to the reset() method is called after each getProduct() call."])%list /\
    heap s !! b = None /\
    director_holds s' d (VRef b) /\
    building s' b p a [].
Proof.
  intros Hd.
  destruct (new_ConcreteBuilder1_run s) as (b & p & a & Hnew & Hb & Hp & Ha & Hbp & Hba & Hpa).
  destruct (building_after_reset s b p a Hp Ha Hpa Hbp Hba) as [H1 Hf1].
  set (s1 := State (<[b := builder_obj p]> (<[p := product_obj a]>
                      (<[a := Array []]> (heap s)))) (console s)) in *.
  assert (Hdne : d <> b /\ d <> p /\ d <> a).
  { destruct Hd as [[Hd _]|Hd]; repeat split; congruence. }
  destruct Hdne as (Hdb & Hdp & Hda).
  assert (Hd1 : director_holds s1 d held).
  { apply (director_same_object s); [|exact Hd].
    destruct Hd as [[Hd _]|Hd]; rewrite Hd; apply Hf1; assumption. }
  pose proof (call_setBuilder 1 s1 d held [VRef b] Hd1) as Hset. simpl nth in Hset.
  set (s2 := State (<[d := director_obj (VRef b)]> (heap s1)) (console s1)) in *.
  assert (H2 : building s2 b p a []) by (apply building_insert_other; assumption).
  assert (Hd2 : director_holds s2 d (VRef b)) by (right; apply lookup_insert_eq).
  destruct (client_log s2 b p a [] d "Standard basic product:" H2 Hd2)
    as (s3 & E3 & H3 & Hd3 & C3).
  destruct (client_recipe s3 b p a d MinimalViableProduct H3 Hd3)
    as (s4 & E4 & H4 & Hd4 & C4).
  destruct (client_retrieve s4 b p a _ d H4 Hd4) as (s5 & p5 & a5 & E5 & H5 & Hd5 & C5).
  destruct (client_log s5 b p5 a5 [] d "Standard full featured product:" H5 Hd5)
    as (s6 & E6 & H6 & Hd6 & C6).
  destruct (client_recipe s6 b p5 a5 d FullFeaturedProduct H6 Hd6)
    as (s7 & E7 & H7 & Hd7 & C7).
  destruct (client_retrieve s7 b p5 a5 _ d H7 Hd7) as (s8 & p8 & a8 & E8 & H8 & Hd8 & C8).
  destruct (client_log s8 b p8 a8 [] d "Custom product:" H8 Hd8)
    as (s9 & E9 & H9 & Hd9 & C9).
  destruct (client_step s9 b p8 a8 [] d StepA H9 Hd9) as (s10 & E10 & H10 & Hd10 & C10).
  destruct (client_step s10 b p8 a8 _ d StepC H10 Hd10) as (s11 & E11 & H11 & Hd11 & C11).
  destruct (client_retrieve s11 b p8 a8 _ d H11 Hd11)
    as (s12 & p12 & a12 & E12 & H12 & Hd12 & C12).
  destruct (client_log s12 b p12 a12 [] d
              "Remember that all outputs are different, due to the reset() method is called after each getProduct() call."
              H12 Hd12) as (s13 & E13 & H13 & Hd13 & C13).
  exists s13, b, p12, a12. split; [|split; [|split; [exact Hb|split; assumption]]].
  - unfold clientCode.
    rewrite (bind_Return _ _ _ _ _ Hnew). unfold invoke at 1.
    rewrite (bind_Return _ _ _ _ _ Hset).
    rewrite (bind_Return _ _ _ _ _ E3), (bind_Return _ _ _ _ _ E4).
    rewrite (bind_Return _ _ _ _ _ E5), (bind_Return _ _ _ _ _ E6).
    rewrite (bind_Return _ _ _ _ _ E7), (bind_Return _ _ _ _ _ E8).
    rewrite (bind_Return _ _ _ _ _ E9), (bind_Return _ _ _ _ _ E10).
    rewrite (bind_Return _ _ _ _ _ E11), (bind_Return _ _ _ _ _ E12).
    rewrite (bind_Return _ _ _ _ _ E13). reflexivity.
  - rewrite C13, C12, C11, C10, C9, C8, C7, C6, C5, C4, C3.
    rewrite <- !app_assoc. reflexivity.
Qed.

(** [clientCode(director)] on a director, whatever it held before, in any
    state: the call ends normally, having logged exactly the seven lines of
    [clientCode_lines]; it has made one new builder, which the director holds
    afterwards and which is left with a product without parts.  The whole
    script, from any state, logs the same seven lines. *)
Theorem clientCode_output (s : state) (d : loc) (held : value)
    (Hd : director_holds s d held) :
  (exists s' b p a,
     clientCode (VRef d) s = (Return VUndefined, s') /\
     console s' = (console s ++ clientCode_lines)%list /\
     heap s !! b = None /\
     director_holds s' d (VRef b) /\
     building s' b p a []) /\
  exists s'',
    script s = (Return VUndefined, s'') /\
    console s'' = (console s ++ clientCode_lines)%list.
Proof.
  split; [exact (clientCode_run s d held Hd)|].
  destruct (new_Director_run s) as (d0 & Hnew & _).
  set (s0 := State (<[d0 := Instance Director ∅]> (heap s)) (console s)) in *.
  assert (Hd0 : director_holds s0 d0 VUndefined).
  { left. split; [apply lookup_insert_eq | reflexivity]. }
  destruct (clientCode_run s0 d0 VUndefined Hd0) as (s'' & b & p & a & Hrun & Hc & _).
  exists s''. split; [|exact Hc].
  unfold script. rewrite (bind_Return _ _ _ _ _ Hnew). exact Hrun.
Qed.

(** [clientCode] makes its builder before it touches its argument: given
    [undefined] or an object that is not a Director, it throws the TypeError
    of the failed [setBuilder] call after the new builder is in the heap, and
    it has logged nothing. *)
Theorem clientCode_needs_a_director (s : state) (recv : value)
    (Hclosed : closed (heap s) recv)
    (Hnot : forall l props, recv = VRef l -> heap s !! l <> Some (Instance Director props)) :
  exists s' b p a,
    clientCode recv s =
      (Throw (TypeError match recv with
                        | VUndefined => PropertyOfUndefined "setBuilder"
                        | VRef _ => NotAFunction "setBuilder"
                        end), s') /\
    console s' = console s /\
    heap s !! b = None /\
    building s' b p a [] /\
    forall l o, heap s !! l = Some o -> heap s' !! l = Some o.
Proof.
  destruct (new_ConcreteBuilder1_run s) as (b & p & a & Hnew & Hb & Hp & Ha & Hbp & Hba & Hpa).
  destruct (building_after_reset s b p a Hp Ha Hpa Hbp Hba) as [H1 Hf1].
  set (s1 := State (<[b := builder_obj p]> (<[p := product_obj a]>
                      (<[a := Array []]> (heap s)))) (console s)) in *.
  exists s1, b, p, a. split; [|split; [reflexivity|split; [exact Hb|split; [exact H1|]]]].
  - unfold clientCode. rewrite (bind_Return _ _ _ _ _ Hnew). apply bind_Throw.
    destruct recv as [|l]; [reflexivity|]. destruct Hclosed as [o Ho].
    assert (Hl1 : heap s1 !! l = Some o) by (apply Hf1; congruence).
    destruct o as [c props|xs].
    + apply (call_not_a_function 1 l c props _ _ s1 Hl1).
      destruct c; try reflexivity. destruct (Hnot l props eq_refl Ho).
    + unfold invoke. cbn [call]. rewrite Hl1. reflexivity.
  - intros l o Hl. apply Hf1; congruence.
Qed.

(** ** Every client program keeps the heap well-formed *)

Lemma extends_insert_fresh h l o : h !! l = None -> extends h (<[l := o]> h).
Proof.
  intros Hl. repeat split.
  - intros l' props Hl'. rewrite lookup_insert_ne by congruence. exact Hl'.
  - intros l' xs Hl'. rewrite lookup_insert_ne by congruence. eauto.
  - intros l' [o' Hl']. rewrite lookup_insert_ne by congruence. eauto.
Qed.

(** [new Product1()] by the client: a product no builder holds. *)
Lemma new_Product1_wf s o s' :
  wf s -> new_Product1 s = (o, s') ->
  wf s' /\ extends (heap s) (heap s') /\ outcome_ok (heap s') o.
Proof.
  intros Hwf Hnew. pose proof Hwf as [Hobj Hprod Harr].
  destruct (new_Product1_run s) as (p & a & Hrun & Hp & Ha & Hpa).
  rewrite Hrun in Hnew. injection Hnew as <- <-. simpl heap.
  set (h' := <[p := product_obj a]> (<[a := Array []]> (heap s))).
  assert (Hlookup : forall l o,
    h' !! l = Some o ->
    (l = p /\ o = product_obj a) \/ (l = a /\ o = Array []) \/ heap s !! l = Some o).
  { intros l o Hl. unfold h' in Hl.
    apply lookup_insert_Some in Hl as [[<- <-]|[? Hl]]; [auto|].
    apply lookup_insert_Some in Hl as [[<- <-]|[? Hl]]; auto. }
  assert (Hold : forall l o, heap s !! l = Some o -> h' !! l = Some o).
  { intros l o Hl. unfold h'. rewrite !lookup_insert_ne by congruence. exact Hl. }
  assert (Hp' : h' !! p = Some (product_obj a)) by apply lookup_insert_eq.
  assert (Ha' : h' !! a = Some (Array [])).
  { unfold h'. rewrite lookup_insert_ne, lookup_insert_eq by congruence. reflexivity. }
  assert (Hext : extends (heap s) h').
  { repeat split; [intros; apply Hold; assumption | intros l xs Hl; eauto |].
    intros l [o Hl]. rewrite (Hold l o Hl). eauto. }
  split; [|split; [exact Hext | simpl; rewrite Hp'; eauto]].
  split; simpl; fold h'.
  - intros l o Hl. destruct (Hlookup l o Hl) as [[_ ->]|[[_ ->]|Hl0]].
    + exists a, []. split; [reflexivity | exact Ha'].
    + exact I.
    + eapply object_ok_extends; eauto.
  - intros b1 b2 q H1 H2.
    destruct (Hlookup _ _ H1) as [[_ E1]|[[_ E1]|H1']]; try discriminate E1.
    destruct (Hlookup _ _ H2) as [[_ E2]|[[_ E2]|H2']]; try discriminate E2. eauto.
  - intros p1 p2 q H1 H2.
    assert (Hfresh : forall l, heap s !! l = Some (product_obj a) -> False).
    { intros l Hl. destruct (Hobj _ _ Hl) as (a0 & xs & E & Ha0). simpl in E.
      assert (a = a0) as <-.
      { apply product_obj_inj. unfold product_obj. rewrite E. reflexivity. }
      congruence. }
    destruct (Hlookup _ _ H1) as [[-> E1]|[[_ E1]|H1']]; try discriminate E1;
      destruct (Hlookup _ _ H2) as [[-> E2]|[[_ E2]|H2']]; try discriminate E2;
      try reflexivity.
    + apply product_obj_inj in E1 as ->. destruct (Hfresh _ H2').
    + apply product_obj_inj in E2 as ->. destruct (Hfresh _ H1').
    + eauto.
Qed.

Lemma construct_wf c s o s' :
  wf s -> construct c s = (o, s') ->
  wf s' /\ extends (heap s) (heap s') /\ outcome_ok (heap s') o.
Proof.
  intros Hwf Hnew. destruct c; simpl construct in Hnew.
  - apply (new_Product1_wf s o s' Hwf Hnew).
  - destruct (new_Builder_wf s o s' Hwf Hnew) as [Hwf' Hok].
    destruct (new_Builder_run s) as (b & Hrun & Hb).
    rewrite Hrun in Hnew. injection Hnew as <- <-.
    split; [exact Hwf' | split; [apply extends_insert_fresh, Hb | exact Hok]].
  - apply (new_ConcreteBuilder1_wf s o s' Hwf Hnew).
  - destruct (new_Director_wf s o s' Hwf Hnew) as [Hwf' Hok].
    destruct (new_Director_run s) as (d & Hrun & Hd).
    rewrite Hrun in Hnew. injection Hnew as <- <-.
    split; [exact Hwf' | split; [apply extends_insert_fresh, Hd | exact Hok]].
Qed.

Lemma nth_closed h env i :
  Forall (closed h) env -> closed h (nth i env VUndefined).
Proof.
  intros H. revert i. induction H as [|v env Hv _ IH]; intros [|i]; simpl; auto.
Qed.

Lemma run_commands_wf cmds env s o s' :
  wf s -> Forall (closed (heap s)) env ->
  run_commands env cmds s = (o, s') ->
  wf s' /\
  match o with
  | Return env' => Forall (closed (heap s')) env'
  | Throw e => program_error e
  end.
Proof.
  revert env s. induction cmds as [|cmd cmds IH]; intros env s Hwf Henv Hrun.
  - injection Hrun as <- <-. auto.
  - assert (Hstep : forall (m : M value) o1 s1,
              m s = (o1, s1) ->
              wf s1 /\ extends (heap s) (heap s1) /\ outcome_ok (heap s1) o1 ->
              (let* v := m in run_commands (env ++ [v]) cmds) s = (o, s') ->
              wf s' /\
              match o with
              | Return env' => Forall (closed (heap s')) env'
              | Throw e => program_error e
              end).
    { intros m o1 s1 Hm (Hwf1 & Hext & Hok) Hrest.
      unfold bind in Hrest. rewrite Hm in Hrest. destruct o1 as [v|e].
      - apply (IH (env ++ [v])%list s1 Hwf1); [|exact Hrest].
        apply Forall_app. split; [|repeat constructor; exact Hok].
        eapply Forall_impl; [exact Henv|]. intros u. apply closed_extends, Hext.
      - injection Hrest as <- <-. auto. }
    destruct cmd as [c|recv name args]; simpl run_commands in Hrun.
    + destruct (construct c s) as [o1 s1] eqn:Hc.
      apply (Hstep (construct c) o1 s1 Hc (construct_wf c s o1 s1 Hwf Hc) Hrun).
    + destruct (invoke (nth recv env VUndefined) name
                  (map (fun i => nth i env VUndefined) args) s) as [o1 s1] eqn:Hc.
      refine (Hstep _ o1 s1 Hc _ Hrun).
      apply (closed_call s (nth recv env VUndefined) name
               (map (fun i => nth i env VUndefined) args) o1 s1 Hwf
               (nth_closed _ env recv Henv)); [|exact Hc].
      apply Forall_map, Forall_forall. intros i _. apply nth_closed, Henv.
Qed.

(** Whatever commands a client program consists of (constructions, and
    calls of the methods of the four classes on the values it has obtained,
    [undefined] included, with any arguments), the state it ends in is
    well-formed: every builder holds a product of its own and every product
    an array of its own.  If the program ends normally every value it
    obtained refers into the heap; if it is cut short, then by an error the
    classes throw or a TypeError, never by a stack overflow. *)
Theorem client_programs_keep_the_heap_well_formed (cmds : list command)
    (Hscope : commands_in_scope cmds = true) :
  wf (snd (run_commands [] cmds initial_state)) /\
  match fst (run_commands [] cmds initial_state) with
  | Return env => Forall (closed (heap (snd (run_commands [] cmds initial_state)))) env
  | Throw e => program_error e
  end.
Proof.
  apply (run_commands_wf cmds [] initial_state _ _ wf_initial (Forall_nil_2 _)).
  apply surjective_pairing.
Qed.

(** ** The products one builder hands out *)

(** The result of an operation is [undefined], or it is the product that was
    current, which is then no longer current. *)
Lemma op_result s b q a ys op :
  building s b q a ys ->
  exists v s' q' a' ys',
    invoke (VRef b) (op_method op) [] s = (Return v, s') /\
    building s' b q' a' ys' /\
    is_Some (heap s' !! q) /\
    (v = VUndefined \/ (v = VRef q /\ q' <> q)).
Proof.
  intros H. pose proof H as (Hb & Hq & Ha).
  assert (Hqb : q <> b) by (unfold builder_obj, product_obj in *; congruence).
  destruct op as [|st|].
  - destruct (call_reset 1 s b q [] Hb) as (p' & a' & Hrun & Hp' & Ha' & Hpa').
    assert (Hbp : b <> p') by congruence. assert (Hba : b <> a') by congruence.
    destruct (building_after_reset s b p' a' Hp' Ha' Hpa' Hbp Hba) as [Hbuild Hframe].
    eexists VUndefined, _, p', a', []. split; [exact Hrun|]. split; [exact Hbuild|].
    split; [rewrite (Hframe _ _ Hqb Hq); eauto | left; reflexivity].
  - eexists VUndefined, _, q, a, _. split; [apply (call_step 1 s b q a ys st [] H)|].
    split; [apply building_push; exact H|]. split; [|left; reflexivity].
    destruct (building_push s b q a ys (step_part st) H) as (_ & Hq' & _). rewrite Hq'. eauto.
  - destruct (getProduct_parts s b q a ys H)
      as (s' & p' & a' & Hrun & _ & Hbuild & Hne & _ & _ & Hframe).
    exists (VRef q), s', p', a', []. split; [exact Hrun|]. split; [exact Hbuild|].
    split; [rewrite (Hframe _ _ Hqb Hq); eauto | right; auto].
Qed.

(** However a builder is used, it never hands out the same product twice:
    the results of a sequence of [reset] / [producePartX] / [getProduct]
    calls on a builder that is building are [undefined] or references, and two
    results at different positions are never the same reference. *)
Theorem retrieved_products_are_distinct (s : state) (b p a : loc) (xs : list string)
    (ops : list builder_op) (H : building s b p a xs) :
  exists vs s',
    run_ops (VRef b) ops s = (Return vs, s') /\
    forall i j q, vs !! i = Some (VRef q) -> vs !! j = Some (VRef q) -> i = j.
Proof.
  revert s p a xs H. induction ops as [|op ops IH]; intros s p a xs H.
  - exists [], s. split; [reflexivity|]. intros i j q Hi. rewrite lookup_nil in Hi. discriminate.
  - destruct (op_result s b p a xs op H) as (v & s1 & p1 & a1 & xs1 & Hop & H1 & Hin & Hv).
    destruct (IH s1 p1 a1 xs1 H1) as (vs & s2 & Hops & Hdistinct).
    exists (v :: vs), s2. split.
    { simpl run_ops. rewrite (bind_Return _ _ _ _ _ Hop), (bind_Return _ _ _ _ _ Hops).
      reflexivity. }
    assert (Hhead : forall q, v = VRef q -> VRef q ∉ vs).
    { intros q ->. destruct Hv as [Hv|[Hv Hne]]; [discriminate Hv|]. injection Hv as ->.
      destruct (run_ops_run ops s1 b p1 a1 xs1 H1) as (vs' & s2' & ? & ? & ? & Hops' & _ & _ & Hold).
      rewrite Hops in Hops'. injection Hops' as <- <-.
      apply (Hold p Hin (not_eq_sym Hne)). }
    intros [|i] [|j] q Hi Hj; simpl in Hi, Hj.
    + reflexivity.
    + injection Hi as ->. destruct (Hhead q eq_refl). eapply list_elem_of_lookup_2; eauto.
    + injection Hj as ->. destruct (Hhead q eq_refl). eapply list_elem_of_lookup_2; eauto.
    + f_equal. eapply Hdistinct; eauto.
Qed.

(** * The further properties on concrete states *)

Lemma lone_director_wf : wf lone_director_state.
Proof.
  apply (new_Director_wf initial_state _ _ wf_initial (surjective_pairing _)).
Qed.

Lemma lone_director_holds_nothing : director_holds lone_director_state 1 VUndefined.
Proof. left. split; reflexivity. Qed.

Lemma reset_discards_progress_witness :
  building two_builders_state 1 2 3 ["PartA1"] /\
  exists s' p',
    invoke (VRef 1) "reset" [] two_builders_state = (Return VUndefined, s') /\
    p' <> 2%positive /\
    product_parts s' (VRef 2) = Some ["PartA1"].
Proof.
  split; [exact two_builders_building_1|].
  destruct (reset_discards_progress two_builders_state 1 2 3 ["PartA1"] two_builders_building_1)
    as (s' & p' & a' & Hrun & _ & Hne & Hparts & _).
  exists s', p'. repeat split; assumption.
Defined.

Lemma retrieved_product_is_left_alone_witness :
  building two_builders_state 1 2 3 ["PartA1"] /\
  exists s1,
    invoke (VRef 1) "getProduct" [] two_builders_state = (Return (VRef 2), s1) /\
    exists vs s2,
      run_ops (VRef 1) [Produce StepB; GetProduct; Reset; Produce StepC] s1 =
        (Return vs, s2) /\
      product_parts s2 (VRef 2) = Some ["PartA1"].
Proof.
  split; [exact two_builders_building_1|].
  destruct (retrieved_product_is_left_alone two_builders_state 1 2 3 ["PartA1"]
              two_builders_building_1) as (s1 & Hget & Hops).
  exists s1. split; [exact Hget|]. apply Hops.
Defined.

Lemma retrieved_products_are_distinct_witness :
  building two_builders_state 1 2 3 ["PartA1"] /\
  exists vs s',
    run_ops (VRef 1) [GetProduct; Produce StepA; GetProduct; GetProduct] two_builders_state =
      (Return vs, s') /\
    forall i j q, vs !! i = Some (VRef q) -> vs !! j = Some (VRef q) -> i = j.
Proof.
  split; [exact two_builders_building_1|].
  apply (retrieved_products_are_distinct two_builders_state 1 2 3 ["PartA1"] _
           two_builders_building_1).
Defined.

Lemma recipe_all_or_nothing_witness :
  wf lone_director_state /\
  director_holds lone_director_state 1 VUndefined /\
  invoke (VRef 1) "buildFullFeaturedProduct" [] lone_director_state =
    (Throw (TypeError (PropertyOfUndefined "producePartA")), lone_director_state).
Proof.
  split; [exact lone_director_wf|]. split; [exact lone_director_holds_nothing|].
  destruct (recipe_all_or_nothing lone_director_state 1 VUndefined FullFeaturedProduct []
              lone_director_wf lone_director_holds_nothing)
    as [(bl & p & a & xs & E & _)|[_ E]]; [discriminate E | exact E].
Defined.

Lemma failed_call_changes_nothing_witness :
  is_program_method "listParts" = true /\
  wf two_builders_state /\
  invoke (VRef 4) "listParts" [VRef 1] two_builders_state =
    (Throw (TypeError (NotAFunction "listParts")),
     snd (invoke (VRef 4) "listParts" [VRef 1] two_builders_state)) /\
  snd (invoke (VRef 4) "listParts" [VRef 1] two_builders_state) = two_builders_state.
Proof.
  assert (E : invoke (VRef 4) "listParts" [VRef 1] two_builders_state =
              (Throw (TypeError (NotAFunction "listParts")),
               snd (invoke (VRef 4) "listParts" [VRef 1] two_builders_state)))
    by reflexivity.
  split; [reflexivity|]. split; [exact two_builders_wf|]. split; [exact E|].
  apply (failed_call_changes_nothing two_builders_state (VRef 4) "listParts" [VRef 1] _ _
           eq_refl two_builders_wf E).
Defined.

Lemma setBuilder_replaces_builder_witness :
  director_holds two_builders_state 7 (VRef 1) /\
  (invoke (VRef 7) "setBuilder" [] >>
   invoke (VRef 7) "buildMinimalViableProduct" []) two_builders_state =
    (Throw (TypeError (PropertyOfUndefined "producePartA")),
     State (<[7%positive := director_obj VUndefined]> (heap two_builders_state))
           (console two_builders_state)).
Proof.
  split; [exact two_builders_director|].
  apply (setBuilder_replaces_builder two_builders_state 7 (VRef 1) VUndefined VUndefined
           [] [] MinimalViableProduct two_builders_director).
Defined.

Lemma full_recipe_extends_minimal_witness :
  director_holds two_builders_state 7 (VRef 1) /\
  invoke (VRef 7) "buildFullFeaturedProduct" [] two_builders_state =
  (invoke (VRef 7) "buildMinimalViableProduct" [] >>
   invoke (VRef 1) "producePartB" [] >>
   invoke (VRef 1) "producePartC" [] >>
   ret VUndefined) two_builders_state.
Proof.
  split; [exact two_builders_director|].
  apply (full_recipe_extends_minimal two_builders_state 7 (VRef 1) [] two_builders_director).
Defined.

Lemma builders_do_not_interfere_witness :
  wf two_builders_state /\
  1%positive <> 4%positive /\
  building two_builders_state 1 2 3 ["PartA1"] /\
  building two_builders_state 4 5 6 [] /\
  (produce_all (VRef 4) [StepC] >> produce_all (VRef 1) [StepB; StepB]) two_builders_state =
  (produce_all (VRef 1) [StepB; StepB] >> produce_all (VRef 4) [StepC]) two_builders_state.
Proof.
  assert (Hne : 1%positive <> 4%positive) by discriminate.
  split; [exact two_builders_wf|]. split; [exact Hne|].
  split; [exact two_builders_building_1|]. split; [exact two_builders_building_2|].
  apply (builders_do_not_interfere two_builders_state 1 2 3 4 5 6 ["PartA1"] []
           [StepB; StepB] [StepC] two_builders_wf Hne
           two_builders_building_1 two_builders_building_2).
Defined.

Lemma printed_parts_determine_steps_witness :
  console (snd (build_and_list [StepA; StepC] initial_state)) =
  console (snd (build_and_list [StepA; StepC] initial_state)) /\
  [StepA; StepC] = [StepA; StepC].
Proof.
  split; [reflexivity|].
  apply (printed_parts_determine_steps initial_state [StepA; StepC] [StepA; StepC] eq_refl).
Defined.

Lemma clientCode_output_witness :
  director_holds two_builders_state 7 (VRef 1) /\
  exists s',
    clientCode (VRef 7) two_builders_state = (Return VUndefined, s') /\
    console s' = clientCode_lines.
Proof.
  split; [exact two_builders_director|].
  destruct (clientCode_output two_builders_state 7 (VRef 1) two_builders_director)
    as [(s' & b & p & a & Hrun & Hc & _) _].
  exists s'. split; [exact Hrun | exact Hc].
Defined.

Lemma clientCode_needs_a_director_witness :
  closed (heap two_builders_state) (VRef 1) /\
  (forall l props,
     VRef 1 = VRef l -> heap two_builders_state !! l <> Some (Instance Director props)) /\
  exists s',
    clientCode (VRef 1) two_builders_state =
      (Throw (TypeError (NotAFunction "setBuilder")), s') /\
    console s' = console two_builders_state.
Proof.
  assert (Hclosed : closed (heap two_builders_state) (VRef 1)) by (eexists; reflexivity).
  assert (Hnot : forall l props,
            VRef 1 = VRef l ->
            heap two_builders_state !! l <> Some (Instance Director props)).
  { intros l props E. injection E as <-.
    destruct two_builders_building_1 as (Hb & _). rewrite Hb. discriminate. }
  split; [exact Hclosed|]. split; [exact Hnot|].
  destruct (clientCode_needs_a_director two_builders_state (VRef 1) Hclosed Hnot)
    as (s' & b & p & a & Hrun & Hc & _).
  exists s'. split; [exact Hrun | exact Hc].
Defined.

(** A client program: a builder and a director, a recipe, the product listed,
    and a last call that fails because a product has no [reset]. *)
Lemma client_programs_keep_the_heap_well_formed_witness :
  commands_in_scope
    [New ConcreteBuilder1; New Director;
     Call 1 "setBuilder" [0]; Call 1 "buildFullFeaturedProduct" [];
     Call 0 "getProduct" []; Call 4 "listParts" []; Call 4 "reset" []] = true /\
  wf (snd (run_commands []
             [New ConcreteBuilder1; New Director;
              Call 1 "setBuilder" [0]; Call 1 "buildFullFeaturedProduct" [];
              Call 0 "getProduct" []; Call 4 "listParts" []; Call 4 "reset" []]
             initial_state)) /\
  fst (run_commands []
         [New ConcreteBuilder1; New Director;
          Call 1 "setBuilder" [0]; Call 1 "buildFullFeaturedProduct" [];
          Call 0 "getProduct" []; Call 4 "listParts" []; Call 4 "reset" []]
         initial_state) = Throw (TypeError (NotAFunction "reset")).
Proof.
  split; [reflexivity|]. split; [|vm_compute; reflexivity].
  apply (client_programs_keep_the_heap_well_formed
           [New ConcreteBuilder1; New Director;
            Call 1 "setBuilder" [0]; Call 1 "buildFullFeaturedProduct" [];
            Call 0 "getProduct" []; Call 4 "listParts" []; Call 4 "reset" []] eq_refl).
Defined.
